(** * Resume parser: upload pipeline, JSON coercion and metadata store

    A shallow embedding of the Python service under [app/]:

    - [app/models.py]                 the [ResumeData] schema;
    - [app/services/llm_service.py]   [call_groq_langchain], [extract_structured_json];
    - [app/services/parser.py]        text extraction, [save_metadata],
                                      [load_metadata], [process_file],
                                      [save_uploaded_file];
    - [app/main.py]                   the two HTTP handlers.

    Python values are modelled as follows.  A [str] is a [string] whose
    characters are the code points 0..255; a [dict] with string keys is a
    [gmap string _]; JSON documents are the inductive [JSON]; an exception
    is a class with its message, and a call that may raise returns a
    [result].  Code that reads or writes the disk, draws a [uuid4] or calls
    a library threads a [World] and consults an [Env], the record of what
    the libraries and the configuration answer. *)

From Stdlib Require Import ZArith Ascii Lia.
From stdpp Require Import gmap strings list pretty.

#[local] Open Scope Z_scope.

(** ** Python string operations *)

Module PyStr.

Definition code (c : ascii) : Z := Z.of_N (N_of_ascii c).

(** The double quote character, and JSON text written with an apostrophe
    wherever the document has a double quote. *)
Definition dquote : ascii := "034"%char.

Fixpoint js (s : string) : string :=
  match s with
  | EmptyString => EmptyString
  | String c r => String (if decide (c = "'"%char) then dquote else c) (js r)
  end.

(** [str.lower()]: the capital letters A-Z and the Latin-1 capitals
    (U+00C0..U+00DE without the multiplication sign) move down by 32. *)
Definition lower_char (c : ascii) : ascii :=
  let n := code c in
  if ((65 <=? n) && (n <=? 90)) || ((192 <=? n) && (n <=? 222) && negb (n =? 215))
  then ascii_of_N (Z.to_N (n + 32)) else c.

Fixpoint lower (s : string) : string :=
  match s with
  | EmptyString => EmptyString
  | String c r => String (lower_char c) (lower r)
  end.

(** [s.split(sep)] for a one-character separator: never empty. *)
Fixpoint split (sep : ascii) (s : string) : list string :=
  match s with
  | EmptyString => [EmptyString]
  | String c r =>
      if decide (c = sep) then EmptyString :: split sep r
      else match split sep r with
           | h :: t => String c h :: t
           | [] => [String c EmptyString]
           end
  end.

(** [l[-1]] on a list of strings (the empty string stands for the
    [IndexError] that [split] never causes). *)
Definition last_item (l : list string) : string := List.last l EmptyString.

(** [str.isspace()] on one character. *)
Definition is_space (c : ascii) : bool :=
  let n := code c in
  ((9 <=? n) && (n <=? 13)) || ((28 <=? n) && (n <=? 32)) || (n =? 133) || (n =? 160).

Fixpoint lstrip (s : string) : string :=
  match s with
  | EmptyString => EmptyString
  | String c r => if is_space c then lstrip r else s
  end.

Fixpoint rstrip (s : string) : string :=
  match s with
  | EmptyString => EmptyString
  | String c r =>
      match rstrip r with
      | EmptyString => if is_space c then EmptyString else String c EmptyString
      | r' => String c r'
      end
  end.

(** [s.strip()] *)
Definition strip (s : string) : string := rstrip (lstrip s).

Definition len (s : string) : Z := Z.of_nat (String.length s).

(** [s.find(c)]: the least index of [c], or -1. *)
Fixpoint find_from (c : ascii) (s : string) (i : Z) : Z :=
  match s with
  | EmptyString => -1
  | String a r => if decide (a = c) then i else find_from c r (i + 1)
  end.
Definition find (c : ascii) (s : string) : Z := find_from c s 0.

(** [s.rfind(c)]: the greatest index of [c], or -1. *)
Fixpoint rfind_from (c : ascii) (s : string) (i best : Z) : Z :=
  match s with
  | EmptyString => best
  | String a r => rfind_from c r (i + 1) (if decide (a = c) then i else best)
  end.
Definition rfind (c : ascii) (s : string) : Z := rfind_from c s 0 (-1).

(** Slice bounds: a negative index counts from the end, and both ends are
    clamped to the string. *)
Definition clamp (n i : Z) : Z :=
  if i <? 0 then Z.max 0 (i + n) else Z.min i n.

Fixpoint drop (n : nat) (s : string) : string :=
  match n, s with
  | O, _ => s
  | S n', String _ r => drop n' r
  | S _, EmptyString => EmptyString
  end.

Fixpoint take (n : nat) (s : string) : string :=
  match n, s with
  | S n', String c r => String c (take n' r)
  | _, _ => EmptyString
  end.

(** [s[lo:hi]] *)
Definition slice (s : string) (lo hi : Z) : string :=
  let a := clamp (len s) lo in
  let b := clamp (len s) hi in
  take (Z.to_nat (b - a)) (drop (Z.to_nat a) s).

(** [s[:hi]] *)
Definition slice_to (s : string) (hi : Z) : string := slice s 0 hi.

(** [sep.join(l)] *)
Fixpoint join (sep : string) (l : list string) : string :=
  match l with
  | [] => EmptyString
  | [x] => x
  | x :: r => x +:+ sep +:+ join sep r
  end.

End PyStr.

(** ** JSON values, as [json.loads] builds them *)

(** A number keeps its lexeme: the digits decide whether Python reads an
    [int] or a [float]. *)
#[warnings="-register-all"]
Inductive JSON : Type :=
| JNull
| JBool (b : bool)
| JNum (lexeme : string)
| JStr (s : string)
| JArr (items : list JSON)
| JObj (fields : gmap string JSON).


(** ** The JSON decoder of Python's [json] module *)

Module PyJson.
Import PyStr.

(** What a scanner answers: a value with the text left after it, a
    [JSONDecodeError], or that the recursion allowance ran out. *)
Inductive scan (A : Type) : Type :=
| Scanned (a : A) (rest : string)
| Invalid
| OutOfFuel.
Arguments Scanned {A} a rest.
Arguments Invalid {A}.
Arguments OutOfFuel {A}.

(** The decoder's whitespace: space, tab, line feed, carriage return. *)
Definition is_ws (c : ascii) : bool :=
  let n := code c in (n =? 32) || (n =? 9) || (n =? 10) || (n =? 13).

Fixpoint skip_ws (s : string) : string :=
  match s with
  | String c r => if is_ws c then skip_ws r else s
  | EmptyString => EmptyString
  end.

Definition is_digit (c : ascii) : bool := (48 <=? code c) && (code c <=? 57).

Definition hex_val (c : ascii) : option Z :=
  let n := code c in
  if (48 <=? n) && (n <=? 57) then Some (n - 48)
  else if (65 <=? n) && (n <=? 70) then Some (n - 55)
  else if (97 <=? n) && (n <=? 102) then Some (n - 87)
  else None.

(** The one-letter escapes of a JSON string. *)
Definition escape (e : ascii) : option ascii :=
  if decide (e = dquote) then Some dquote
  else if decide (e = "\"%char) then Some "\"%char
  else if decide (e = "/"%char) then Some "/"%char
  else if decide (e = "b"%char) then Some "008"%char
  else if decide (e = "f"%char) then Some "012"%char
  else if decide (e = "n"%char) then Some "010"%char
  else if decide (e = "r"%char) then Some "013"%char
  else if decide (e = "t"%char) then Some "009"%char
  else None.

(** [\uXXXX]: four hexadecimal digits.  Only the code points up to 255
    are characters of this model; a larger one is reported [Invalid]. *)
Definition unicode_escape (h1 h2 h3 h4 : ascii) : option ascii :=
  match hex_val h1, hex_val h2, hex_val h3, hex_val h4 with
  | Some a, Some b, Some c, Some d =>
      let n := ((a * 16 + b) * 16 + c) * 16 + d in
      if n <? 256 then Some (ascii_of_N (Z.to_N n)) else None
  | _, _, _, _ => None
  end.

(** [scanstring] in strict mode, from just after the opening quote. *)
Fixpoint scanstring (s : string) : scan string :=
  match s with
  | EmptyString => Invalid
  | String c r =>
      if decide (c = dquote) then Scanned EmptyString r
      else if decide (c = "\"%char) then
        match r with
        | EmptyString => Invalid
        | String e r' =>
            if decide (e = "u"%char) then
              match r' with
              | String h1 (String h2 (String h3 (String h4 r''))) =>
                  match unicode_escape h1 h2 h3 h4 with
                  | Some ch =>
                      match scanstring r'' with
                      | Scanned str rest => Scanned (String ch str) rest
                      | other => other
                      end
                  | None => Invalid
                  end
              | _ => Invalid
              end
            else
              match escape e with
              | Some ch =>
                  match scanstring r' with
                  | Scanned str rest => Scanned (String ch str) rest
                  | other => other
                  end
              | None => Invalid
              end
        end
      else if code c <? 32 then Invalid
      else
        match scanstring r with
        | Scanned str rest => Scanned (String c str) rest
        | other => other
        end
  end.

(** [s[idx:idx+len(w)] == w], with the text after the word. *)
Fixpoint after_word (w s : string) : option string :=
  match w, s with
  | EmptyString, _ => Some s
  | String a w', String b s' => if decide (a = b) then after_word w' s' else None
  | String _ _, EmptyString => None
  end.

(** The longest run of decimal digits, and what follows it. *)
Fixpoint span_digits (s : string) : string * string :=
  match s with
  | String c r =>
      if is_digit c then let '(ds, rest) := span_digits r in (String c ds, rest)
      else (EmptyString, s)
  | EmptyString => (EmptyString, EmptyString)
  end.

(** NUMBER_RE: an optional minus sign and either a lone 0 or a digit run
    that starts with 1-9; then, optionally, a point with at least one
    digit; then, optionally, e or E, an optional sign and at least one
    digit. *)
Definition scan_integer (s : string) : option (string * string) :=
  let '(sign, r) :=
    match after_word "-" s with
    | Some r => ("-", r)
    | None => (EmptyString, s)
    end in
  match after_word "0" r with
  | Some r' => Some (sign +:+ "0", r')
  | None =>
      match span_digits r with
      | (EmptyString, _) => None
      | (ds, rest) => Some (sign +:+ ds, rest)
      end
  end.

Definition scan_frac (s : string) : string * string :=
  match after_word "." s with
  | Some r =>
      match span_digits r with
      | (EmptyString, _) => (EmptyString, s)
      | (ds, rest) => ("." +:+ ds, rest)
      end
  | None => (EmptyString, s)
  end.

Definition scan_exp (s : string) : string * string :=
  match s with
  | String e r =>
      if bool_decide (e = "e"%char) || bool_decide (e = "E"%char) then
        let '(sign, r1) :=
          match after_word "-" r, after_word "+" r with
          | Some r1, _ => ("-", r1)
          | None, Some r1 => ("+", r1)
          | None, None => (EmptyString, r)
          end in
        match span_digits r1 with
        | (EmptyString, _) => (EmptyString, s)
        | (ds, rest) => (String e sign +:+ ds, rest)
        end
      else (EmptyString, s)
  | EmptyString => (EmptyString, s)
  end.

Definition match_number (s : string) : option (string * string) :=
  match scan_integer s with
  | Some (int, r) =>
      let '(frac, r1) := scan_frac r in
      let '(exp, r2) := scan_exp r1 in
      Some (int +:+ frac +:+ exp, r2)
  | None => None
  end.

(** The constants and the numbers of [scan_once], tried in its order. *)
Definition scan_atom (s : string) : scan JSON :=
  match after_word "null" s, after_word "true" s, after_word "false" s with
  | Some rest, _, _ => Scanned JNull rest
  | _, Some rest, _ => Scanned (JBool true) rest
  | _, _, Some rest => Scanned (JBool false) rest
  | None, None, None =>
      match match_number s with
      | Some (lexeme, rest) => Scanned (JNum lexeme) rest
      | None =>
          match after_word "NaN" s, after_word "Infinity" s,
                after_word "-Infinity" s with
          | Some rest, _, _ => Scanned (JNum "NaN") rest
          | _, Some rest, _ => Scanned (JNum "Infinity") rest
          | _, _, Some rest => Scanned (JNum "-Infinity") rest
          | None, None, None => Invalid
          end
      end
  end.

(** [scan_once], [JSONObject] and [JSONArray].  [fuel] bounds the nesting
    of calls; [decode] gives one more than twice the length of the text,
    which [decode_fuel] below shows to be enough. *)
Fixpoint scan_once (fuel : nat) (s : string) : scan JSON :=
  match fuel with
  | O => OutOfFuel
  | S fuel' =>
      match s with
      | EmptyString => Invalid
      | String c r =>
          if decide (c = dquote) then
            match scanstring r with
            | Scanned str rest => Scanned (JStr str) rest
            | Invalid => Invalid
            | OutOfFuel => OutOfFuel
            end
          else if decide (c = "{"%char) then
            match after_word "}" (skip_ws r) with
            | Some rest => Scanned (JObj ∅) rest
            | None =>
                match JSONObject fuel' (skip_ws r) ∅ with
                | Scanned d rest => Scanned (JObj d) rest
                | Invalid => Invalid
                | OutOfFuel => OutOfFuel
                end
            end
          else if decide (c = "["%char) then
            match after_word "]" (skip_ws r) with
            | Some rest => Scanned (JArr []) rest
            | None =>
                match JSONArray fuel' (skip_ws r) with
                | Scanned l rest => Scanned (JArr l) rest
                | Invalid => Invalid
                | OutOfFuel => OutOfFuel
                end
            end
          else scan_atom s
      end
  end

(** The members of an object from a key's opening quote on; a key met
    twice keeps its last value, as [dict(pairs)] does. *)
with JSONObject (fuel : nat) (s : string) (pairs : gmap string JSON)
  : scan (gmap string JSON) :=
  match fuel with
  | O => OutOfFuel
  | S fuel' =>
      match after_word (String dquote EmptyString) s with
      | Some r =>
          match scanstring r with
          | Scanned key r1 =>
              match after_word ":" (skip_ws r1) with
              | Some r2 =>
                  match scan_once fuel' (skip_ws r2) with
                  | Scanned value r3 =>
                      let pairs' := <[key := value]> pairs in
                      match after_word "}" (skip_ws r3), after_word "," (skip_ws r3) with
                      | Some rest, _ => Scanned pairs' rest
                      | None, Some r4 => JSONObject fuel' (skip_ws r4) pairs'
                      | None, None => Invalid
                      end
                  | Invalid => Invalid
                  | OutOfFuel => OutOfFuel
                  end
              | None => Invalid
              end
          | Invalid => Invalid
          | OutOfFuel => OutOfFuel
          end
      | None => Invalid
      end
  end

(** The items of an array from its first item on. *)
with JSONArray (fuel : nat) (s : string) : scan (list JSON) :=
  match fuel with
  | O => OutOfFuel
  | S fuel' =>
      match scan_once fuel' s with
      | Scanned value r1 =>
          match after_word "]" (skip_ws r1), after_word "," (skip_ws r1) with
          | Some rest, _ => Scanned [value] rest
          | None, Some r2 =>
              match JSONArray fuel' (skip_ws r2) with
              | Scanned l rest => Scanned (value :: l) rest
              | other => other
              end
          | None, None => Invalid
          end
      | Invalid => Invalid
      | OutOfFuel => OutOfFuel
      end
  end.

(** The digits of a lexeme as a number, signs and points skipped. *)
Fixpoint digits_to_Z (s : string) (acc : Z) : Z :=
  match s with
  | String c r =>
      if is_digit c then digits_to_Z r (10 * acc + (code c - 48))
      else digits_to_Z r acc
  | EmptyString => acc
  end.

(** Whether Python reads the lexeme as zero: an [int] when all its digits
    are 0; a [float] (a lexeme with a fraction or an exponent) also when
    its value is at most 2^-1075, which rounds to 0.0.  [NaN] and the
    infinities are not zero. *)
Definition is_zero (lexeme : string) : bool :=
  match scan_integer lexeme with
  | Some (int, r) =>
      let '(frac, r1) := scan_frac r in
      let '(exp, _) := scan_exp r1 in
      let mantissa := digits_to_Z (int +:+ frac) 0 in
      let exponent :=
        (if bool_decide (find "-"%char exp = -1) then 1 else -1) * digits_to_Z exp 0 in
      let k := exponent - Z.max 0 (len frac - 1) in
      (mantissa =? 0)
      || (negb (bool_decide (frac = EmptyString) && bool_decide (exp = EmptyString))
          && (k <? 0) && (mantissa * 2 ^ 1075 <=? 10 ^ (- k)))
  | None => false
  end.

(** Whether Python reads the lexeme as a finite number: an [int] always; a
    [float] (a lexeme with a fraction or an exponent) when its value is
    below 2^1024 - 2^970, from where on [float()] rounds to [inf].  [NaN]
    and the infinities are not finite. *)
Definition is_finite (lexeme : string) : bool :=
  match scan_integer lexeme with
  | Some (int, r) =>
      let '(frac, r1) := scan_frac r in
      let '(exp, _) := scan_exp r1 in
      let mantissa := digits_to_Z (int +:+ frac) 0 in
      let exponent :=
        (if bool_decide (find "-"%char exp = -1) then 1 else -1) * digits_to_Z exp 0 in
      let k := exponent - Z.max 0 (len frac - 1) in
      (bool_decide (frac = EmptyString) && bool_decide (exp = EmptyString))
      || (if k <? 0 then mantissa <? (2 ^ 1024 - 2 ^ 970) * 10 ^ (- k)
          else mantissa * 10 ^ k <? 2 ^ 1024 - 2 ^ 970)
  | None => false
  end.

(** Whether [json.dumps(v, allow_nan=False)] renders the value: no number
    in it, at any depth, is [nan] or infinite. *)
Fixpoint finite (v : JSON) : bool :=
  match v with
  | JNum lexeme => is_finite lexeme
  | JArr items => forallb finite items
  | JObj fields => map_fold (fun _ item rest => finite item && rest) true fields
  | _ => true
  end.

(** [JSONDecoder.decode]: one value between optional whitespace, and
    nothing after it. *)
Definition decode (s : string) : scan JSON :=
  match scan_once (S (2 * String.length s)) (skip_ws s) with
  | Scanned v rest =>
      match skip_ws rest with
      | EmptyString => Scanned v EmptyString
      | _ => Invalid
      end
  | other => other
  end.

(** [json.loads(s)]: [None] stands for the [JSONDecodeError]. *)
Definition loads (s : string) : option JSON :=
  match decode s with
  | Scanned v _ => Some v
  | _ => None
  end.

End PyJson.

(** ** Exceptions and results *)

(** The exception classes the service meets.  [JSONDecodeError],
    [UnicodeDecodeError], pydantic's [ValidationError] and LangChain's
    [OutputParserException] derive from [ValueError]; [KeyError] from
    [LookupError]; all derive from [Exception]. *)
Inductive exn_class : Type :=
| ValueError
| JSONDecodeError
| UnicodeDecodeError
| ValidationError
| OutputParserException
| RuntimeError
| TypeError
| AttributeError
| KeyError
| OSError
| OtherException.

(** An exception: an instance of a class with its [str()], or FastAPI's
    [HTTPException] with its status code and detail. *)
Inductive exn : Type :=
| PyExn (cls : exn_class) (msg : string)
| HTTPException (status_code : Z) (detail : string).

#[global] Instance exn_class_eq_dec : EqDecision exn_class.
Proof. solve_decision. Defined.

#[global] Instance exn_eq_dec : EqDecision exn.
Proof. solve_decision. Defined.

(** [isinstance(e, ValueError)] *)
Definition is_ValueError (e : exn) : bool :=
  match e with
  | PyExn (ValueError | JSONDecodeError | UnicodeDecodeError
          | ValidationError | OutputParserException) _ => true
  | _ => false
  end.

(** [isinstance(e, json.JSONDecodeError)] *)
Definition is_JSONDecodeError (e : exn) : bool :=
  match e with
  | PyExn JSONDecodeError _ => true
  | _ => false
  end.

(** [isinstance(e, pydantic.ValidationError)] *)
Definition is_ValidationError (e : exn) : bool :=
  match e with
  | PyExn ValidationError _ => true
  | _ => false
  end.

(** [isinstance(e, Exception)] *)
Definition is_Exception (e : exn) : bool := true.

(** [str(e)] *)
Definition exn_str (e : exn) : string :=
  match e with
  | PyExn _ msg => msg
  | HTTPException _ detail => detail
  end.

Inductive result (A : Type) : Type :=
| Ok (a : A)
| Raise (e : exn).
Arguments Ok {A} a.
Arguments Raise {A} e.

(** ** The world a request runs in *)

(** What reading METADATA_FILE with [json.load] gives: the exception of
    [open], of the read or of the decoder, or the decoded document.
    [json.dump] followed by [json.load] is taken to give the value back. *)
Inductive MetaFile : Type :=
| MetaError (e : exn)
| MetaJson (v : JSON).

(** Calls that leave the process, in the order they were made (latest
    first). *)
Inductive Call : Type :=
| WriteUpload (path : string)
| OpenPdf (path : string)
| OpenDocx (path : string)
| InvokeGroq (prompt : string)
| ReadMetadata
| WriteMetadata.

Record World : Type := mkWorld {
  metadata_file : MetaFile;          (* METADATA_FILE *)
  files : gmap string string;        (* the files under UPLOAD_DIR, by path *)
  uuid_count : nat;                  (* how many uuid4() were drawn so far *)
  trace : list Call;
}.

(** A word-processor document as python-docx shows it: the texts of the
    paragraphs, and the cell texts of each row of each table. *)
Record DocxDocument : Type := mkDocx {
  paragraphs : list string;
  tables : list (list (list string));
}.

(** The configuration and the libraries.  Each field is what the named
    Python expression evaluates to. *)
Record Env : Type := mkEnv {
  (* os.getenv("LLM_PROVIDER", "groq").lower() *)
  LLM_PROVIDER : string;
  (* os.getenv("GROQ_API_KEY") *)
  GROQ_API_KEY : option string;
  (* str(UPLOAD_DIR) *)
  UPLOAD_DIR : string;
  (* json.loads(s), None when it raises *)
  json_loads : string -> option JSON;
  (* PydanticOutputParser(pydantic_object=ResumeData).parse(raw).model_dump() *)
  parser_parse : string -> result (gmap string JSON);
  (* parser.get_format_instructions() *)
  get_format_instructions : string;
  (* llm.invoke([...]) of ChatGroq, then content or str(response) *)
  llm_invoke : string -> result string;
  (* [page.get_text() for page in fitz.open(path)], from the file's bytes *)
  fitz_open : option string -> result (list string);
  (* Document(path), from the file's bytes *)
  docx_Document : option string -> result DocxDocument;
  (* str(uuid4()), for the n-th draw *)
  uuid4 : nat -> string;
  (* werkzeug's secure_filename *)
  secure_filename : string -> string;
  (* writing a file at the path: the exception raised, if any *)
  write_upload : string -> option exn;
  (* rewriting METADATA_FILE: the exception raised, if any *)
  write_metadata : option exn;
  (* what a failed write leaves at the path: nothing when open(path, "wb")
     itself failed, else a file with the bytes written before the failure,
     by their number *)
  write_upload_left : string -> option nat;
  (* what a failed rewrite leaves of METADATA_FILE: the file as it was when
     open("w") itself failed, else the truncated file, by what reading it
     then gives *)
  write_metadata_left : option MetaFile;
}.

(** ** Computations *)

Definition M (A : Type) : Type := World -> result A * World.

#[global] Instance M_ret : MRet M := fun A a w => (Ok a, w).

#[global] Instance M_bind : MBind M := fun A B f m w =>
  match m w with
  | (Ok a, w') => f a w'
  | (Raise e, w') => (Raise e, w')
  end.

Definition raise {A} (e : exn) : M A := fun w => (Raise e, w).

Definition lift {A} (r : result A) : M A := fun w => (r, w).

(** [try: m  except <catches> as exc: handler exc] *)
Definition try_except {A} (m : M A) (catches : exn -> bool) (handler : exn -> M A) : M A :=
  fun w =>
    match m w with
    | (Raise e, w') => if catches e then handler e w' else (Raise e, w')
    | done => done
    end.

(** [try: m  except c1 as exc: h1 exc  except c2 as exc: h2 exc]: the first
    clause that matches handles the exception, and what a handler raises
    is not handled here. *)
Definition try_except2 {A} (m : M A)
    (c1 : exn -> bool) (h1 : exn -> M A)
    (c2 : exn -> bool) (h2 : exn -> M A) : M A :=
  fun w =>
    match m w with
    | (Raise e, w') =>
        if c1 e then h1 e w'
        else if c2 e then h2 e w'
        else (Raise e, w')
    | done => done
    end.

Definition get_world : M World := fun w => (Ok w, w).

Definition call (c : Call) : M unit := fun w =>
  (Ok tt, mkWorld (metadata_file w) (files w) (uuid_count w) (c :: trace w)).

Definition newline : string := String "010"%char EmptyString.

(** ** [app/services/llm_service.py] *)

Section Service.
Context (env : Env).

(** [PROMPT_BODY.format(text=text)] *)
Definition PROMPT_BODY_format (text : string) : string :=
  newline
  +:+ "Extract structured resume fields from the text below and return JSON exactly matching the requested schema."
  +:+ newline +:+ newline +:+ "Text:" +:+ newline
  +:+ PyStr.js "'''" +:+ text +:+ PyStr.js "'''" +:+ newline.

Definition call_groq_langchain (prompt : string) : M string :=
  match GROQ_API_KEY env with
  | None | Some EmptyString =>
      raise (PyExn RuntimeError "GROQ_API_KEY must be set for Groq provider.")
  | Some _ =>
      _ ← call (InvokeGroq prompt);
      lift (llm_invoke env prompt)
  end.

(** [json.loads] as a call that raises. *)
Definition loads (s : string) : M JSON :=
  match json_loads env s with
  | Some v => mret v
  | None => raise (PyExn JSONDecodeError "Expecting value")
  end.

(** The record that stands for a response no strategy could read. *)
Definition raw_sentinel (raw : string) : JSON := JObj {[ "_raw" := JStr raw ]}.

(** [f"{format_instructions}\n\n{PROMPT_BODY.format(text=text)}"] *)
Definition prompt_of (text : string) : string :=
  get_format_instructions env +:+ newline +:+ newline +:+ PROMPT_BODY_format text.

Definition extract_structured_json (text : string) : M JSON :=
  let prompt := prompt_of text in
  if decide (LLM_PROVIDER env = "groq") then
    raw ← call_groq_langchain prompt;
    (* try: return parser.parse(raw).model_dump()
       except ValidationError: log  except Exception: log *)
    validated ← try_except2
                  (d ← lift (parser_parse env raw); mret (Some d))
                  is_ValidationError
                  (fun _ => mret None)
                  is_Exception
                  (fun _ => mret None);
    match validated with
    | Some d => mret (JObj d)
    | None =>
        (* Fallback: attempt naive JSON extraction *)
        try_except
          (let start := PyStr.find "{"%char raw in
           let end_ := PyStr.rfind "}"%char raw in
           if negb (start =? -1) && negb (end_ =? -1) && (end_ >? start)
           then loads (PyStr.slice raw start (end_ + 1))
           else loads raw)
          is_Exception
          (fun _ => mret (raw_sentinel raw))
    end
  else
    raise (PyExn ValueError ("Unsupported LLM provider: " +:+ LLM_PROVIDER env)).

(** ** [app/services/parser.py] *)

Definition nonempty (s : string) : bool :=
  match s with
  | EmptyString => false
  | String _ _ => true
  end.

Definition read_upload (path : string) : M (option string) :=
  fun w => (Ok (files w !! path), w).

Definition extract_text_from_pdf (path : string) : M string :=
  text_chunks ← try_except
                  (_ ← call (OpenPdf path);
                   contents ← read_upload path;
                   pages ← lift (fitz_open env contents);
                   mret (filter (fun text => Is_true (nonempty text)) pages))
                  is_Exception
                  (fun exc =>
                     raise (PyExn ValueError
                              ("Unable to extract text from PDF: " +:+ exn_str exc)));
  mret (PyStr.join newline text_chunks).

Definition extract_text_from_docx (path : string) : M string :=
  texts ← try_except
            (_ ← call (OpenDocx path);
             contents ← read_upload path;
             doc ← lift (docx_Document env contents);
             mret (filter (fun text => Is_true (nonempty text)) (paragraphs doc)
                   ++ filter (fun text => Is_true (nonempty text))
                        (concat (concat (tables doc)))))
            is_Exception
            (fun exc =>
               raise (PyExn ValueError
                        ("Unable to extract text from DOCX: " +:+ exn_str exc)));
  mret (PyStr.join newline texts).

(** [with METADATA_FILE.open("r") as f: json.load(f)] *)
Definition read_metadata : M JSON :=
  _ ← call ReadMetadata;
  w ← get_world;
  match metadata_file w with
  | MetaJson v => mret v
  | MetaError e => raise e
  end.

(** [with METADATA_FILE.open("w") as f: json.dump(meta, f, indent=2)].
    Opening the file for writing empties it, so a failure after the file
    was opened leaves a truncated file behind. *)
Definition write_metadata_file (meta : JSON) : M unit :=
  _ ← call WriteMetadata;
  match write_metadata env with
  | Some e =>
      (fun w => (Raise e,
                 mkWorld (default (metadata_file w) (write_metadata_left env))
                   (files w) (uuid_count w) (trace w))) : M unit
  | None =>
      fun w => (Ok tt, mkWorld (MetaJson meta) (files w) (uuid_count w) (trace w))
  end.

(** [obj[key] = value] on a decoded JSON document. *)
Definition setitem (obj : JSON) (key : string) (value : JSON) : result JSON :=
  match obj with
  | JObj d => Ok (JObj (<[key := value]> d))
  | JArr _ => Raise (PyExn TypeError "list indices must be integers or slices, not str")
  | _ => Raise (PyExn TypeError "object does not support item assignment")
  end.

Definition save_metadata (document_id : string) (data : gmap string JSON) : M unit :=
  meta ← try_except read_metadata is_JSONDecodeError
           (fun _ => mret (JObj ∅));
  meta' ← lift (setitem meta document_id (JObj data));
  write_metadata_file meta'.

(** [obj.get(key)] and [obj.get(key, default)]: Python's [None] is
    [JNull]. *)
Definition get (obj : JSON) (key : string) (dflt : JSON) : result JSON :=
  match obj with
  | JObj d => Ok (default dflt (d !! key))
  | _ => Raise (PyExn AttributeError "object has no attribute 'get'")
  end.

Definition load_metadata (document_id : string) : M JSON :=
  try_except
    (meta ← read_metadata;
     lift (get meta document_id JNull))
    is_Exception
    (fun _ => mret JNull).

(** [key in obj]: a key of a dict, an item of a list, a substring of a
    string; anything else is not iterable. *)
Fixpoint is_prefix (p s : string) : bool :=
  match p, s with
  | EmptyString, _ => true
  | String a p', String b s' => bool_decide (a = b) && is_prefix p' s'
  | String _ _, EmptyString => false
  end.

Fixpoint is_substring (p s : string) : bool :=
  is_prefix p s ||
  match s with
  | EmptyString => false
  | String _ s' => is_substring p s'
  end.

Definition contains (key : string) (obj : JSON) : result bool :=
  match obj with
  | JObj d => Ok (bool_decide (is_Some (d !! key)))
  | JArr l => Ok (existsb (fun v => match v with
                                    | JStr s => bool_decide (s = key)
                                    | _ => false
                                    end) l)
  | JStr s => Ok (is_substring key s)
  | _ => Raise (PyExn TypeError "argument is not iterable")
  end.

Definition expected_keys : list string :=
  ["contact"; "summary"; "experience"; "education"; "skills"; "certifications"].

Definition list_keys : list string :=
  ["experience"; "education"; "skills"; "certifications"].

(** [for key in keys: if key not in parsed: parsed[key] = [] if key in
    list_keys else None] *)
Fixpoint fill_defaults (keys : list string) (parsed : JSON) : result JSON :=
  match keys with
  | [] => Ok parsed
  | key :: rest =>
      match contains key parsed with
      | Raise e => Raise e
      | Ok true => fill_defaults rest parsed
      | Ok false =>
          match setitem parsed key
                  (if bool_decide (key ∈ list_keys) then JArr [] else JNull) with
          | Raise e => Raise e
          | Ok parsed' => fill_defaults rest parsed'
          end
      end
  end.

(** [str(uuid4())] *)
Definition new_uuid : M string := fun w =>
  (Ok (uuid4 env (uuid_count w)),
   mkWorld (metadata_file w) (files w) (S (uuid_count w)) (trace w)).

(** [filename.lower().split(".")[-1]] *)
Definition extension (filename : string) : string :=
  PyStr.last_item (PyStr.split "."%char (PyStr.lower filename)).

(** The text of the document: the [if ext in ... elif ... else] of
    [process_file]. *)
Definition document_text (file_path filename : string) : M string :=
  let ext := extension filename in
  if bool_decide (ext ∈ ["pdf"]) then extract_text_from_pdf file_path
  else if bool_decide (ext ∈ ["docx"; "doc"]) then extract_text_from_docx file_path
  else raise (PyExn ValueError "Unsupported file type. Only PDF and DOCX are allowed.").

(** The dict literal [result = {...}] of [process_file]. *)
Definition make_result (document_id : string) (parsed : JSON) (text : string)
  : result (gmap string JSON) :=
  match get parsed "contact" JNull,
        get parsed "summary" JNull,
        get parsed "experience" (JArr []),
        get parsed "education" (JArr []),
        get parsed "skills" (JArr []),
        get parsed "certifications" (JArr []) with
  | Ok contact, Ok summary, Ok experience, Ok education, Ok skills, Ok certifications =>
      Ok (<[ "document_id" := JStr document_id ]>
         (<[ "contact" := contact ]>
         (<[ "summary" := summary ]>
         (<[ "experience" := experience ]>
         (<[ "education" := education ]>
         (<[ "skills" := skills ]>
         (<[ "certifications" := certifications ]>
         (<[ "raw_text" := JStr (PyStr.slice_to text 5000) ]> ∅))))))))
  | Raise e, _, _, _, _, _
  | _, Raise e, _, _, _, _
  | _, _, Raise e, _, _, _
  | _, _, _, Raise e, _, _
  | _, _, _, _, Raise e, _
  | _, _, _, _, _, Raise e => Raise e
  end.

Definition process_file (file_path filename : string) : M (gmap string JSON) :=
  text ← document_text file_path filename;
  if negb (nonempty (PyStr.strip text)) then
    raise (PyExn ValueError "The uploaded file contains no text.")
  else
    parsed ← extract_structured_json text;
    (* Validate parsed output keys *)
    parsed ← lift (fill_defaults expected_keys parsed);
    document_id ← new_uuid;
    result ← lift (make_result document_id parsed text);
    _ ← save_metadata document_id result;
    mret result.

Definition save_uploaded_file (contents filename : string) : M string :=
  let safe_name := secure_filename env filename in
  token ← new_uuid;
  let save_path := UPLOAD_DIR env +:+ "/" +:+ token +:+ "_" +:+ safe_name in
  try_except
    (_ ← call (WriteUpload save_path);
     match write_upload env save_path with
     | Some e =>
         (* the file that [open] created stays, with what was written *)
         (fun w => (Raise e,
                    mkWorld (metadata_file w)
                      (match write_upload_left env save_path with
                       | Some n => <[save_path := PyStr.take n contents]> (files w)
                       | None => files w
                       end)
                      (uuid_count w) (trace w))) : M string
     | None =>
         fun w => (Ok save_path,
                   mkWorld (metadata_file w) (<[save_path := contents]> (files w))
                     (uuid_count w) (trace w))
     end)
    is_Exception
    (fun exc => raise (PyExn ValueError ("Failed to save file: " +:+ exn_str exc))).

(** ** [app/main.py] *)

(** An uploaded file: its name and its bytes. *)
Record UploadFile : Type := mkUpload {
  filename : string;
  read : string;
}.

(** A response: its status and its body. *)
Record Response : Type := mkResponse {
  status : Z;
  content : JSON;
}.

(** [JSONResponse(content=...)], status 200.  Starlette renders the body
    in the constructor, with [json.dumps(content, allow_nan=False)], which
    raises a [ValueError] on a number that is [nan] or infinite.  (The
    strings of this model hold no surrogate, so encoding the body does
    not fail.) *)
Definition JSONResponse (content : JSON) : result Response :=
  if PyJson.finite content then Ok (mkResponse 200 content)
  else Raise (PyExn ValueError "Out of range float values are not JSON compliant").

(** [d[key]] *)
Definition getitem (d : gmap string JSON) (key : string) : result JSON :=
  match d !! key with
  | Some v => Ok v
  | None => Raise (PyExn KeyError key)
  end.

Definition upload_resume (file : UploadFile) : M Response :=
  let ext := extension (filename file) in
  if negb (bool_decide (ext ∈ ["pdf"; "docx"; "doc"])) then
    raise (HTTPException 400 "Only PDF or DOCX files are supported.")
  else
    file_path ← try_except
                  (let contents := read file in
                   save_uploaded_file contents (filename file))
                  is_ValueError
                  (fun exc => raise (HTTPException 500 (exn_str exc)));
    try_except2
      (parsed ← process_file file_path (filename file);
       document_id ← lift (getitem parsed "document_id");
       lift (JSONResponse (JObj {[ "document_id" := document_id ]})))
      is_ValueError
      (fun ve => raise (HTTPException 400 (exn_str ve)))
      is_Exception
      (fun exc => raise (HTTPException 500 "Failed to process resume.")).

(** [if not data]: the falsy values are [None], [False], zero, and the
    empty string, list and dict. *)
Definition truthy (v : JSON) : bool :=
  match v with
  | JNull => false
  | JBool b => b
  | JNum lexeme => negb (PyJson.is_zero lexeme)
  | JStr s => nonempty s
  | JArr l => match l with [] => false | _ => true end
  | JObj d => negb (bool_decide (d = ∅))
  end.

Definition get_resume (document_id : string) : M Response :=
  data ← load_metadata document_id;
  if negb (truthy data) then
    raise (HTTPException 404 "Resume not found")
  else
    lift (JSONResponse data).

(** What FastAPI answers for a handler: its response, the status and
    detail of the [HTTPException] it raised, or 500 for any other
    exception. *)
Definition respond (handler : M Response) : World -> Response * World :=
  fun w =>
    match handler w with
    | (Ok r, w') => (r, w')
    | (Raise (HTTPException code detail), w') =>
        (mkResponse code (JObj {[ "detail" := JStr detail ]}), w')
    | (Raise (PyExn _ _), w') =>
        (mkResponse 500 (JStr "Internal Server Error"), w')
    end.

End Service.

(** ** [app/models.py]: the schema, as pydantic validates decoded JSON *)

Module Models.

(** [Optional[str]]: absent or null gives [None], a string itself. *)
Definition optional_str (v : option JSON) : option JSON :=
  match v with
  | None | Some JNull => Some JNull
  | Some (JStr s) => Some (JStr s)
  | Some _ => None
  end.

Definition is_str (v : JSON) : option JSON :=
  match v with
  | JStr s => Some (JStr s)
  | _ => None
  end.

(** [Optional[List[T]] = Field(default_factory=list)] *)
Definition optional_list (item : JSON -> option JSON) (v : option JSON) : option JSON :=
  match v with
  | None => Some (JArr [])
  | Some JNull => Some JNull
  | Some (JArr l) => JArr <$> mapM item l
  | Some _ => None
  end.

Section Schema.
(** [EmailStr]: the address as the email validator returns it. *)
Context (validate_email : string -> option string).

Definition optional_email (v : option JSON) : option JSON :=
  match v with
  | None | Some JNull => Some JNull
  | Some (JStr s) => JStr <$> validate_email s
  | Some _ => None
  end.

Definition ContactInfo (v : JSON) : option JSON :=
  match v with
  | JObj d =>
      name ← optional_str (d !! "name");
      email ← optional_email (d !! "email");
      phone ← optional_str (d !! "phone");
      location ← optional_str (d !! "location");
      Some (JObj (<["name" := name]> (<["email" := email]>
                 (<["phone" := phone]> (<["location" := location]> ∅)))))
  | _ => None
  end.

Definition JobEntry (v : JSON) : option JSON :=
  match v with
  | JObj d =>
      company ← optional_str (d !! "company");
      role ← optional_str (d !! "role");
      start_date ← optional_str (d !! "start_date");
      end_date ← optional_str (d !! "end_date");
      duration ← optional_str (d !! "duration");
      responsibilities ← optional_list is_str (d !! "responsibilities");
      Some (JObj (<["company" := company]> (<["role" := role]>
                 (<["start_date" := start_date]> (<["end_date" := end_date]>
                 (<["duration" := duration]>
                 (<["responsibilities" := responsibilities]> ∅)))))))
  | _ => None
  end.

Definition EducationEntry (v : JSON) : option JSON :=
  match v with
  | JObj d =>
      degree ← optional_str (d !! "degree");
      institution ← optional_str (d !! "institution");
      year ← optional_str (d !! "year");
      Some (JObj (<["degree" := degree]> (<["institution" := institution]>
                 (<["year" := year]> ∅))))
  | _ => None
  end.

Definition optional_contact (v : option JSON) : option JSON :=
  match v with
  | None | Some JNull => Some JNull
  | Some c => ContactInfo c
  end.

(** [ResumeData.model_validate(v).model_dump()]: [document_id] is the
    one required field; keys the model does not declare are ignored. *)
Definition ResumeData (v : JSON) : option (gmap string JSON) :=
  match v with
  | JObj d =>
      document_id ← d !! "document_id" ≫= is_str;
      contact ← optional_contact (d !! "contact");
      summary ← optional_str (d !! "summary");
      experience ← optional_list JobEntry (d !! "experience");
      education ← optional_list EducationEntry (d !! "education");
      skills ← optional_list is_str (d !! "skills");
      certifications ← optional_list is_str (d !! "certifications");
      raw_text ← optional_str (d !! "raw_text");
      Some (<["document_id" := document_id]> (<["contact" := contact]>
           (<["summary" := summary]> (<["experience" := experience]>
           (<["education" := education]> (<["skills" := skills]>
           (<["certifications" := certifications]>
           (<["raw_text" := raw_text]> ∅))))))))
  | _ => None
  end.
End Schema.

End Models.

(** ** A reference environment

    The libraries at their plainest, to run the service on examples: the
    decoder above for [json.loads]; a schema parser that decodes the
    response as JSON text and validates it against [ResumeData] (no
    Markdown fences, no repair of truncated JSON); a document whose text
    is its bytes; the n-th identifier named after n; a disk that accepts
    every write.  The provider and the answer of the model are left to
    choose. *)

Module Reference.

Definition validate_email (s : string) : option string :=
  if negb (bool_decide (PyStr.find "@"%char s = -1)) then Some s else None.

Definition schema_parse (raw : string) : result (gmap string JSON) :=
  match PyJson.loads raw ≫= Models.ResumeData validate_email with
  | Some d => Ok d
  | None => Raise (PyExn OutputParserException "Failed to parse ResumeData from completion")
  end.

Definition pdf_pages (contents : option string) : result (list string) :=
  match contents with
  | Some bytes => Ok [bytes]
  | None => Raise (PyExn OSError "no such file")
  end.

Definition docx_of (contents : option string) : result DocxDocument :=
  match contents with
  | Some bytes => Ok (mkDocx [bytes] [])
  | None => Raise (PyExn OSError "Package not found")
  end.

Definition nth_uuid (n : nat) : string := "uuid-" +:+ pretty n.

Definition env (provider : string) (answer : result string) : Env :=
  {| LLM_PROVIDER := provider;
     GROQ_API_KEY := Some "gsk-key";
     UPLOAD_DIR := "data/uploads";
     json_loads := PyJson.loads;
     parser_parse := schema_parse;
     get_format_instructions := "The output should be formatted as a JSON instance.";
     llm_invoke := fun _ => answer;
     fitz_open := pdf_pages;
     docx_Document := docx_of;
     uuid4 := nth_uuid;
     secure_filename := fun name => name;
     write_upload := fun _ => None;
     write_metadata := None;
     write_upload_left := fun _ => None;
     write_metadata_left := None |}.

(** The same environment with no API key configured. *)
Definition without_key (e : Env) : Env :=
  {| LLM_PROVIDER := LLM_PROVIDER e;
     GROQ_API_KEY := None;
     UPLOAD_DIR := UPLOAD_DIR e;
     json_loads := json_loads e;
     parser_parse := parser_parse e;
     get_format_instructions := get_format_instructions e;
     llm_invoke := llm_invoke e;
     fitz_open := fitz_open e;
     docx_Document := docx_Document e;
     uuid4 := uuid4 e;
     secure_filename := secure_filename e;
     write_upload := write_upload e;
     write_metadata := write_metadata e;
     write_upload_left := write_upload_left e;
     write_metadata_left := write_metadata_left e |}.

(** The store as the module leaves it at import: an empty object. *)
Definition world0 : World :=
  {| metadata_file := MetaJson (JObj ∅); files := ∅; uuid_count := 0; trace := [] |}.

End Reference.


(** ** Vocabulary of the statements *)

(** The worlds [w] and [w'] hold the same files, the same store and the
    same count of identifiers: at most the trace differs. *)
Definition same_disk (w w' : World) : Prop :=
  metadata_file w' = metadata_file w
  /\ files w' = files w
  /\ uuid_count w' = uuid_count w.

(** The dict [save_metadata] starts from: the object in the file, or the
    empty dict when the file does not decode; nothing when the read raises
    otherwise or the document is not an object. *)
Definition store_of (f : MetaFile) : option (gmap string JSON) :=
  match f with
  | MetaJson (JObj m) => Some m
  | MetaJson _ => None
  | MetaError e => if is_JSONDecodeError e then Some ∅ else None
  end.

(** The record stored under a key of the metadata file, when there is one. *)
Definition stored_record (w : World) (document_id : string) : option (gmap string JSON) :=
  match metadata_file w with
  | MetaJson (JObj m) =>
      match m !! document_id with
      | Some (JObj r) => Some r
      | _ => None
      end
  | _ => None
  end.

(** The coercion strategies of the Structured Extraction Client, as the
    specification names them, and their chaining: the first success wins,
    and the sentinel record stands for none. *)
Section Strategies.
Context (env : Env).

Definition strict_validation (raw : string) : option JSON :=
  match parser_parse env raw with
  | Ok d => Some (JObj d)
  | Raise _ => None
  end.

(** The response has a first [{] and, after it, a last [}]. *)
Definition has_span (raw : string) : bool :=
  let start := PyStr.find "{"%char raw in
  let end_ := PyStr.rfind "}"%char raw in
  negb (start =? -1) && negb (end_ =? -1) && (end_ >? start).

Definition bracketed_span (raw : string) : string :=
  PyStr.slice raw (PyStr.find "{"%char raw) (PyStr.rfind "}"%char raw + 1).

Definition span_parse (raw : string) : option JSON :=
  if has_span raw then json_loads env (bracketed_span raw) else None.

Definition whole_parse (raw : string) : option JSON := json_loads env raw.

Fixpoint first_success (strategies : list (string -> option JSON)) (raw : string)
  : option JSON :=
  match strategies with
  | [] => None
  | strategy :: others =>
      match strategy raw with
      | Some v => Some v
      | None => first_success others raw
      end
  end.

(** Strict validation, then the span, then the whole response. *)
Definition coerce_in_order (raw : string) : JSON :=
  default (raw_sentinel raw)
    (first_success [strict_validation; span_parse; whole_parse] raw).
End Strategies.

(** ** Sample runs *)

Module Sample.
Import Reference.

Definition cv : UploadFile := mkUpload "cv.pdf" "Jane Doe, proof engineer".

(** An answer that passes strict validation and names an identifier of
    its own. *)
Definition answer_valid : string :=
  PyStr.js "{'document_id': 'from-the-model', 'skills': ['Rocq'], 'experience': null}".

(** An answer that is no JSON at all. *)
Definition answer_prose : string := "I could not read this document.".

(** An answer whose span from the first [{] to the last [}] is not one
    JSON value, though the whole answer is. *)
Definition answer_array : string := PyStr.js "[{'a': 1}, {'b': 2}]".

(** An answer that binds a list field to null. *)
Definition answer_null : string := PyStr.js "{'experience': null}".

(** The world once [cv] is uploaded, and where it was written. *)
Definition cv_path : string := "data/uploads/uuid-0_cv.pdf".

Definition uploaded : World :=
  {| metadata_file := MetaJson (JObj ∅);
     files := {[ cv_path := read cv ]};
     uuid_count := 1;
     trace := [WriteUpload cv_path] |}.

(** A store that holds one record already. *)
Definition one_record : gmap string JSON :=
  {[ "uuid-7" := JObj {[ "document_id" := JStr "uuid-7" ]} ]}.

Definition with_store (m : gmap string JSON) : World :=
  {| metadata_file := MetaJson (JObj m); files := ∅; uuid_count := 8; trace := [] |}.

(** A store whose file cannot be opened. *)
Definition unreadable : World :=
  {| metadata_file := MetaError (PyExn OSError "Permission denied");
     files := ∅; uuid_count := 8; trace := [] |}.

(** The outcome of [process_file] on the uploaded [cv]. *)
Definition processed (answer : string) : result (gmap string JSON) * World :=
  process_file (env "groq" (Ok answer)) cv_path (filename cv) uploaded.

Definition record_of (run : result (gmap string JSON) * World) : gmap string JSON :=
  match fst run with
  | Ok r => r
  | Raise _ => ∅
  end.

(** A document of 6000 characters, uploaded, and its processing. *)
Fixpoint letters (n : nat) : string :=
  match n with
  | O => EmptyString
  | S n' => String "a" (letters n')
  end.

Definition long_cv : UploadFile := mkUpload "long.pdf" (letters (Z.to_nat 6000)).

Definition long_path : string := "data/uploads/uuid-0_long.pdf".

Definition long_uploaded : World :=
  {| metadata_file := MetaJson (JObj ∅);
     files := {[ long_path := read long_cv ]};
     uuid_count := 1;
     trace := [WriteUpload long_path] |}.

Definition processed_long : result (gmap string JSON) * World :=
  process_file (env "groq" (Ok answer_valid)) long_path (filename long_cv) long_uploaded.

(** The processing of the uploaded [cv] beside a record stored before. *)
Definition uploaded_beside : World :=
  {| metadata_file := MetaJson (JObj one_record);
     files := {[ cv_path := read cv ]};
     uuid_count := 1;
     trace := [WriteUpload cv_path] |}.

Definition processed_beside : result (gmap string JSON) * World :=
  process_file (env "groq" (Ok answer_valid)) cv_path (filename cv) uploaded_beside.
End Sample.

(** ** Vocabulary of the further statements *)

(** Where [save_uploaded_file] writes the next upload:
    [UPLOAD_DIR / f"{uuid4()}_{safe_name}"]. *)
Definition save_path_of (env : Env) (name : string) (w : World) : string :=
  UPLOAD_DIR env +:+ "/" +:+ uuid4 env (uuid_count w) +:+ "_" +:+ secure_filename env name.

(** The body FastAPI sends for [HTTPException(detail=msg)]. *)
Definition detail_body (msg : string) : JSON := JObj {[ "detail" := JStr msg ]}.

(** What a failed write of [contents] at [path] leaves of the files: the
    files as they were when the file could not be opened, and otherwise
    the file that was opened, with the part of the contents written
    before the failure. *)
Definition files_after_failed_write (env : Env) (path contents : string)
    (files : gmap string string) : gmap string string :=
  match write_upload_left env path with
  | Some n => <[path := PyStr.take n contents]> files
  | None => files
  end.

(** A string of whitespace only (the empty string included). *)
Fixpoint all_space (s : string) : bool :=
  match s with
  | EmptyString => true
  | String c r => PyStr.is_space c && all_space r
  end.

(** How many times a trace called the model. *)
Fixpoint invocations (t : list Call) : nat :=
  match t with
  | [] => O
  | InvokeGroq _ :: rest => S (invocations rest)
  | _ :: rest => invocations rest
  end.

(** ** [app/utils/logger.py] *)

Module Logging.

(** [str.upper()] on a level name.  The letters a-z move up; the other
    characters stay, and a name that holds one of them is no level name
    whatever its upper case. *)
Definition upper_char (c : ascii) : ascii :=
  let n := PyStr.code c in
  if (97 <=? n) && (n <=? 122) then ascii_of_N (Z.to_N (n - 32)) else c.

Fixpoint upper (s : string) : string :=
  match s with
  | EmptyString => EmptyString
  | String c r => String (upper_char c) (upper r)
  end.

(** [logging._checkLevel] on a string: the number of a level name. *)
Definition checkLevel (name : string) : result Z :=
  if bool_decide (name ∈ ["CRITICAL"; "FATAL"]) then Ok 50
  else if bool_decide (name = "ERROR") then Ok 40
  else if bool_decide (name ∈ ["WARN"; "WARNING"]) then Ok 30
  else if bool_decide (name = "INFO") then Ok 20
  else if bool_decide (name = "DEBUG") then Ok 10
  else if bool_decide (name = "NOTSET") then Ok 0
  else Raise (PyExn ValueError ("Unknown level: '" +:+ name +:+ "'")).

Record Handler : Type := mkHandler {
  handler_level : Z;
  fmt : string;
  datefmt : string;
}.

Record Logger : Type := mkLogger {
  level : Z;
  handlers : list Handler;
}.

(** The loggers of the process, by name; [getLogger] gives the root
    logger for the empty name and for the name "root". *)
Definition logger_key (name : string) : string :=
  if bool_decide (name = EmptyString) || bool_decide (name = "root") then "root" else name.

(** A logger seen for the first time: NOTSET and no handler (WARNING for
    the root logger). *)
Definition new_logger (key : string) : Logger :=
  mkLogger (if bool_decide (key = "root") then 30 else 0) [].

Definition getLogger (name : string) (loggers : gmap string Logger) : Logger :=
  default (new_logger (logger_key name)) (loggers !! logger_key name).

Definition setup_logger (name level : string) (loggers : gmap string Logger)
  : result Logger * gmap string Logger :=
  let logger := getLogger name loggers in
  match checkLevel (upper level) with
  | Raise e => (Raise e, <[logger_key name := logger]> loggers)
  | Ok n =>
      let logger := mkLogger n (handlers logger) in
      let logger :=
        match handlers logger with
        | [] =>   (* prevent adding multiple handlers *)
            mkLogger n
              [mkHandler n
                 "%(asctime)s | %(levelname)s | %(name)s:%(funcName)s - %(message)s"
                 "%Y-%m-%d %H:%M:%S"]
        | _ => logger
        end in
      (Ok logger, <[logger_key name := logger]> loggers)
  end.

(** [logger = setup_logger(os.getenv("LOG_LEVEL", "INFO"))], as main.py,
    parser.py and llm_service.py have it: the setting is the first
    argument. *)
Definition module_logger (LOG_LEVEL : option string) (loggers : gmap string Logger)
  : result Logger * gmap string Logger :=
  setup_logger (default "INFO" LOG_LEVEL) "INFO" loggers.

End Logging.

(** ** More sample runs *)

Module Cases.
Import Reference Sample.

(** The reference environment with the failures of the disk and of the
    PDF library, and the API key, left to choose.  A write that fails
    leaves the file it opened empty. *)
Definition env_with (write : string -> option exn)
    (pages : option string -> result (list string))
    (key : option string) (answer : result string) : Env :=
  {| LLM_PROVIDER := "groq";
     GROQ_API_KEY := key;
     UPLOAD_DIR := "data/uploads";
     json_loads := PyJson.loads;
     parser_parse := schema_parse;
     get_format_instructions := "The output should be formatted as a JSON instance.";
     llm_invoke := fun _ => answer;
     fitz_open := pages;
     docx_Document := docx_of;
     uuid4 := nth_uuid;
     secure_filename := fun name => name;
     write_upload := write;
     write_metadata := None;
     write_upload_left := fun _ => Some O;
     write_metadata_left := None |}.

Definition disk_full (path : string) : option exn :=
  Some (PyExn OSError "No space left on device").

Definition broken_pdf (contents : option string) : result (list string) :=
  Raise (PyExn OtherException "cannot open broken document").

(** A PDF whose only page is blank. *)
Definition blank_cv : UploadFile := mkUpload "blank.pdf" "   ".

(** An answer that is valid JSON and no object. *)
Definition answer_list : string := "[1, 2]".


Definition list_store : World :=
  {| metadata_file := MetaJson (JArr []); files := ∅; uuid_count := 8; trace := [] |}.

Definition empty_record : gmap string JSON := {[ "uuid-7" := JObj ∅ ]}.



(** The answer of the handler to an upload, from the store as the module
    leaves it at import. *)
Definition upload (e : Env) (file : UploadFile) : Response * World :=
  respond (upload_resume e file) world0.

(** The logger that a first [setup_logger] at DEBUG makes. *)
Definition first_logger : Logging.Logger :=
  Logging.mkLogger 10
    [Logging.mkHandler 10
       "%(asctime)s | %(levelname)s | %(name)s:%(funcName)s - %(message)s"
       "%Y-%m-%d %H:%M:%S"].

(** A decoded answer that binds the required field and a skill, and what
    [ResumeData] makes of it. *)
Definition bare_answer : JSON :=
  JObj {[ "document_id" := JStr "x"; "skills" := JArr [JStr "Rocq"] ]}.

Definition bare_dump : gmap string JSON :=
  {[ "document_id" := JStr "x"; "contact" := JNull; "summary" := JNull;
     "experience" := JArr []; "education" := JArr [];
     "skills" := JArr [JStr "Rocq"]; "certifications" := JArr [];
     "raw_text" := JNull ]}.

End Cases.

(** * Properties *)

(** ** Strings *)

Section StringFacts.
Import PyStr.

Lemma take_length (n : nat) (s : string) :
  String.length (take n s) = Nat.min n (String.length s).
Proof.
  revert s; induction n as [|n IH]; intros [|c r]; simpl; try reflexivity.
  now rewrite IH.
Qed.

Lemma take_drop (n : nat) (s : string) : take n s +:+ drop n s = s.
Proof.
  revert s; induction n as [|n IH]; intros [|c r]; try reflexivity.
  change (String c (take n r +:+ drop n r) = String c r).
  now rewrite IH.
Qed.

Lemma take_all (n : nat) (s : string) :
  (String.length s <= n)%nat -> take n s = s.
Proof.
  revert s; induction n as [|n IH]; intros [|c r] H; simpl in *;
    try reflexivity; try lia.
  f_equal. apply IH. lia.
Qed.

(** [s[:n]] for a bound that is not negative. *)
Lemma slice_to_take (s : string) (n : Z) :
  0 <= n -> slice_to s n = take (Z.to_nat n) s.
Proof.
  intros Hn. unfold slice_to, slice, clamp, len.
  replace (0 <? 0) with false by reflexivity.
  destruct (n <? 0) eqn:E; [apply Z.ltb_lt in E; lia|].
  rewrite (Z.min_l 0) by lia. simpl drop.
  destruct (Z.le_gt_cases n (Z.of_nat (String.length s))) as [H|H].
  - rewrite Z.min_l by lia. now rewrite Z.sub_0_r.
  - rewrite Z.min_r by lia. rewrite Z.sub_0_r, Nat2Z.id.
    rewrite !take_all by lia. reflexivity.
Qed.

Lemma slice_to_length (s : string) (n : Z) :
  0 <= n -> len (slice_to s n) = Z.min n (len s).
Proof.
  intros Hn. rewrite slice_to_take by assumption.
  unfold len. rewrite take_length. lia.
Qed.

Lemma slice_to_prefix (s : string) (n : Z) :
  0 <= n -> exists rest, s = slice_to s n +:+ rest.
Proof.
  intros Hn. rewrite slice_to_take by assumption.
  exists (drop (Z.to_nat n) s). now rewrite take_drop.
Qed.

Lemma slice_to_all (s : string) (n : Z) :
  len s <= n -> slice_to s n = s.
Proof.
  intros H. unfold len in H. rewrite slice_to_take by lia. apply take_all. lia.
Qed.
End StringFacts.

(** ** The extension of a file name *)

Section ExtensionFacts.
Import PyStr.

Lemma find_from_bound (c : ascii) (s : string) (i : Z) :
  find_from c s i = -1 \/ i <= find_from c s i.
Proof.
  revert i; induction s as [|a r IH]; intros i; simpl; [now left|].
  destruct (decide (a = c)); [right; lia|].
  destruct (IH (i + 1)); [now left|right; lia].
Qed.

Lemma find_from_shift (c : ascii) (s : string) (i j : Z) :
  0 <= i -> 0 <= j -> find_from c s i = -1 -> find_from c s j = -1.
Proof.
  revert i j; induction s as [|a r IH]; intros i j Hi Hj; simpl; [reflexivity|].
  destruct (decide (a = c)); [lia|].
  apply IH; lia.
Qed.

Lemma find_cons (c a : ascii) (s : string) :
  find c (String a s) = -1 <-> a <> c /\ find c s = -1.
Proof.
  unfold find. simpl. destruct (decide (a = c)) as [->|Hne].
  - split; [discriminate|]. intros [H _]. contradiction.
  - split.
    + intros H. split; [assumption|]. now apply (find_from_shift c s 1 0).
    + intros [_ H]. now apply (find_from_shift c s 0 1).
Qed.

Lemma split_nonempty (sep : ascii) (s : string) : split sep s <> [].
Proof.
  destruct s as [|c r]; simpl; [discriminate|].
  destruct (decide (c = sep)); [discriminate|].
  destruct (split sep r); discriminate.
Qed.

(** No piece holds the separator. *)
Lemma split_pieces (sep : ascii) (s : string) :
  Forall (fun piece => find sep piece = -1) (split sep s).
Proof.
  induction s as [|c r IH]; simpl.
  - repeat constructor.
  - destruct (decide (c = sep)).
    + constructor; [reflexivity|assumption].
    + destruct (split sep r) as [|h t]; [repeat constructor; now apply find_cons|].
      inversion IH; subst. constructor; [now apply find_cons|assumption].
Qed.

(** Joining the pieces with the separator gives the string back. *)
Lemma join_split (sep : ascii) (s : string) :
  join (String sep EmptyString) (split sep s) = s.
Proof.
  induction s as [|c r IH]; simpl; [reflexivity|].
  destruct (decide (c = sep)) as [->|Hne].
  - pose proof (split_nonempty sep r).
    destruct (split sep r) as [|h t]; [contradiction|].
    cbn [join]. cbn [join] in IH. now rewrite IH.
  - destruct (split sep r) as [|h t] eqn:Hsplit.
    + now apply split_nonempty in Hsplit.
    + destruct t as [|h' t]; cbn [join] in *; now rewrite <- IH.
Qed.

Lemma append_assoc (a b c : string) : (a +:+ b) +:+ c = a +:+ b +:+ c.
Proof.
  induction a as [|x a IH]; [reflexivity|].
  change (String x ((a +:+ b) +:+ c) = String x (a +:+ b +:+ c)). now rewrite IH.
Qed.

(** A joined list ends with its last item, after a separator when the
    list has more than one item. *)
Lemma join_last (sep : string) (l : list string) :
  l <> [] ->
  join sep l = last_item l \/ exists stem, join sep l = stem +:+ sep +:+ last_item l.
Proof.
  unfold last_item. induction l as [|x l IH]; [congruence|]. intros _.
  destruct l as [|y l]; [now left|].
  right. destruct (IH ltac:(discriminate)) as [Hone|(stem & Hmore)].
  - exists x. cbn [join List.last] in *. now rewrite Hone.
  - exists (x +:+ sep +:+ stem). cbn [join List.last] in *.
    rewrite Hmore, !append_assoc. reflexivity.
Qed.

(** The extension is the text after the last point of the lower-cased
    name, and the whole lower-cased name when it has no point. *)
Lemma extension_after_last_point (name : string) :
  find "."%char (extension name) = -1
  /\ (lower name = extension name
      \/ exists stem, lower name = stem +:+ "." +:+ extension name).
Proof.
  unfold extension. split.
  - pose proof (split_pieces "."%char (lower name)) as Hall.
    pose proof (split_nonempty "."%char (lower name)) as Hne.
    unfold last_item. induction Hall as [|x l Hx Hl IH]; [congruence|].
    destruct l as [|y l]; [exact Hx|]. apply IH. discriminate.
  - destruct (join_last "." (split "."%char (lower name)) (split_nonempty _ _))
      as [Hone|(stem & Hmore)]; rewrite join_split in *; eauto.
Qed.

End ExtensionFacts.

(** ** The decoder never runs out of fuel *)

Section DecoderFacts.
Import PyStr PyJson.

Lemma skip_ws_length (s : string) :
  (String.length (skip_ws s) <= String.length s)%nat.
Proof.
  induction s as [|c r IH]; simpl; [lia|].
  destruct (is_ws c); simpl; lia.
Qed.

Lemma after_word_length (w s rest : string) :
  after_word w s = Some rest ->
  String.length s = (String.length w + String.length rest)%nat.
Proof.
  revert s; induction w as [|a w IH]; intros [|b s]; simpl; intros H;
    try discriminate; try (injection H as <-; reflexivity).
  destruct (decide (a = b)); [|discriminate].
  rewrite (IH s H). reflexivity.
Qed.

Lemma string_length_ind (P : string -> Prop) :
  (forall s, (forall r, (String.length r < String.length s)%nat -> P r) -> P s) ->
  forall s, P s.
Proof.
  intros step s.
  assert (H : forall n r, (String.length r < n)%nat -> P r).
  { induction n as [|n IH]; intros r Hr; [lia|].
    apply step. intros r' Hr'. apply IH. lia. }
  apply (H (S (String.length s))). lia.
Qed.

Lemma scanstring_fuel (s : string) : scanstring s <> OutOfFuel.
Proof.
  induction s as [s IH] using string_length_ind.
  destruct s as [|c r]; simpl; [discriminate|].
  repeat case_match; try discriminate; subst;
    match goal with
    | H : scanstring ?x = OutOfFuel |- _ => apply IH in H; [contradiction|simpl; lia]
    end.
Qed.

Lemma scanstring_rest (s str rest : string) :
  scanstring s = Scanned str rest ->
  (String.length rest < String.length s)%nat.
Proof.
  revert str rest.
  induction s as [s IH] using string_length_ind.
  intros str rest. destruct s as [|c r]; simpl; [discriminate|].
  repeat case_match; try discriminate; subst; intros [= <- <-]; try (simpl; lia);
    match goal with
    | H : scanstring ?x = Scanned _ _ |- _ =>
        apply IH in H; [simpl in *; lia|simpl; lia]
    end.
Qed.

Lemma span_digits_rest (s : string) :
  (String.length (span_digits s).2 <= String.length s)%nat.
Proof.
  induction s as [|c r IH]; simpl; [lia|].
  destruct (is_digit c); [|simpl; lia].
  destruct (span_digits r); simpl in *; lia.
Qed.

Lemma span_digits_digits (s : string) :
  (span_digits s).1 <> EmptyString ->
  (String.length (span_digits s).2 < String.length s)%nat.
Proof.
  destruct s as [|c r]; simpl; [congruence|].
  destruct (is_digit c); [|simpl; congruence].
  pose proof (span_digits_rest r). destruct (span_digits r); simpl in *; lia.
Qed.

Lemma scan_integer_rest (s lexeme rest : string) :
  scan_integer s = Some (lexeme, rest) ->
  (String.length rest < String.length s)%nat.
Proof.
  unfold scan_integer.
  destruct (after_word "-" s) as [r|] eqn:Hsign.
  - apply after_word_length in Hsign.
    destruct (after_word "0" r) as [r'|] eqn:Hzero.
    + apply after_word_length in Hzero. intros [= _ <-]. simpl in *. lia.
    + pose proof (span_digits_rest r). destruct (span_digits r) as [[|d ds] rest'];
        [discriminate|]. intros [= _ <-]. simpl in *. lia.
  - destruct (after_word "0" s) as [r'|] eqn:Hzero.
    + apply after_word_length in Hzero. intros [= _ <-]. simpl in *. lia.
    + pose proof (span_digits_digits s). destruct (span_digits s) as [[|d ds] rest'];
        [discriminate|]. intros [= _ <-]. simpl in *. apply H. discriminate.
Qed.

Lemma scan_frac_rest (s : string) :
  (String.length (scan_frac s).2 <= String.length s)%nat.
Proof.
  unfold scan_frac. destruct (after_word "." s) as [r|] eqn:Hdot; [|simpl; lia].
  apply after_word_length in Hdot. pose proof (span_digits_rest r).
  destruct (span_digits r) as [[|d ds] rest]; simpl in *; lia.
Qed.

Lemma scan_exp_rest (s : string) :
  (String.length (scan_exp s).2 <= String.length s)%nat.
Proof.
  unfold scan_exp. destruct s as [|e r]; [simpl; lia|].
  destruct (bool_decide (e = "e"%char) || bool_decide (e = "E"%char)); [|simpl; lia].
  destruct (after_word "-" r) as [r1|] eqn:Hminus.
  - apply after_word_length in Hminus. pose proof (span_digits_rest r1).
    destruct (span_digits r1) as [[|d ds] rest]; simpl in *; lia.
  - destruct (after_word "+" r) as [r1|] eqn:Hplus.
    + apply after_word_length in Hplus. pose proof (span_digits_rest r1).
      destruct (span_digits r1) as [[|d ds] rest]; simpl in *; lia.
    + pose proof (span_digits_rest r).
      destruct (span_digits r) as [[|d ds] rest]; simpl in *; lia.
Qed.

Lemma match_number_rest (s lexeme rest : string) :
  match_number s = Some (lexeme, rest) ->
  (String.length rest < String.length s)%nat.
Proof.
  unfold match_number. destruct (scan_integer s) as [[int r]|] eqn:Hint; [|discriminate].
  apply scan_integer_rest in Hint.
  pose proof (scan_frac_rest r). destruct (scan_frac r) as [frac r1].
  pose proof (scan_exp_rest r1). destruct (scan_exp r1) as [exp r2].
  intros [= _ <-]. simpl in *. lia.
Qed.

Lemma scan_atom_fuel (s : string) : scan_atom s <> OutOfFuel.
Proof. unfold scan_atom. repeat case_match; discriminate. Qed.

Lemma scan_atom_rest (s : string) (v : JSON) (rest : string) :
  scan_atom s = Scanned v rest ->
  (String.length rest < String.length s)%nat.
Proof.
  unfold scan_atom. intros H.
  repeat case_match; simplify_eq;
    repeat match goal with
      | H : after_word _ _ = Some _ |- _ => apply after_word_length in H
      | H : match_number _ = Some _ |- _ => apply match_number_rest in H
      end; simpl in *; lia.
Qed.

(** Each scanner leaves less text than it was given. *)
Lemma scanners_rest (fuel : nat) :
  (forall s v rest, scan_once fuel s = Scanned v rest ->
                    (String.length rest < String.length s)%nat)
  /\ (forall s pairs d rest, JSONObject fuel s pairs = Scanned d rest ->
                             (String.length rest < String.length s)%nat)
  /\ (forall s l rest, JSONArray fuel s = Scanned l rest ->
                       (String.length rest < String.length s)%nat).
Proof.
  induction fuel as [|fuel (IHonce & IHobj & IHarr)];
    [repeat split; intros; discriminate|].
  split; [|split].
  - intros [|c r] v rest; cbn [scan_once]; [discriminate|].
    pose proof (skip_ws_length r) as Hws.
    destruct (decide (c = dquote)).
    { destruct (scanstring r) eqn:Hs; intros [= <- <-].
      apply scanstring_rest in Hs. simpl; lia. }
    destruct (decide (c = "{"%char)).
    { destruct (after_word "}" (skip_ws r)) eqn:Hclose.
      - apply after_word_length in Hclose. intros [= <- <-]. simpl in *; lia.
      - destruct (JSONObject fuel (skip_ws r) ∅) eqn:Hobj; intros [= <- <-].
        apply IHobj in Hobj. simpl; lia. }
    destruct (decide (c = "["%char)).
    { destruct (after_word "]" (skip_ws r)) eqn:Hclose.
      - apply after_word_length in Hclose. intros [= <- <-]. simpl in *; lia.
      - destruct (JSONArray fuel (skip_ws r)) eqn:Harr; intros [= <- <-].
        apply IHarr in Harr. simpl; lia. }
    apply scan_atom_rest.
  - intros s pairs d rest; cbn [JSONObject].
    destruct (after_word (String dquote EmptyString) s) as [r|] eqn:Hq; [|discriminate].
    apply after_word_length in Hq.
    destruct (scanstring r) as [key r1| |] eqn:Hkey; try discriminate.
    apply scanstring_rest in Hkey. pose proof (skip_ws_length r1).
    destruct (after_word ":" (skip_ws r1)) as [r2|] eqn:Hcolon; [|discriminate].
    apply after_word_length in Hcolon. pose proof (skip_ws_length r2).
    destruct (scan_once fuel (skip_ws r2)) as [value r3| |] eqn:Hval; try discriminate.
    apply IHonce in Hval. pose proof (skip_ws_length r3). cbv zeta.
    destruct (after_word "}" (skip_ws r3)) as [r4|] eqn:Hclose.
    { apply after_word_length in Hclose. intros [= <- <-]. simpl in *; lia. }
    destruct (after_word "," (skip_ws r3)) as [r4|] eqn:Hcomma; [|discriminate].
    apply after_word_length in Hcomma. pose proof (skip_ws_length r4).
    intros Hrec. apply IHobj in Hrec. simpl in *; lia.
  - intros s l rest; cbn [JSONArray].
    destruct (scan_once fuel s) as [value r1| |] eqn:Hval; try discriminate.
    apply IHonce in Hval. pose proof (skip_ws_length r1).
    destruct (after_word "]" (skip_ws r1)) as [r2|] eqn:Hclose.
    { apply after_word_length in Hclose. intros [= <- <-]. simpl in *; lia. }
    destruct (after_word "," (skip_ws r1)) as [r2|] eqn:Hcomma; [|discriminate].
    apply after_word_length in Hcomma. pose proof (skip_ws_length r2).
    destruct (JSONArray fuel (skip_ws r2)) as [l' rest'| |] eqn:Hrec; try discriminate.
    apply IHarr in Hrec. intros [= <- <-]. simpl in *; lia.
Qed.

(** With more than twice the length of the text as fuel, no scanner runs
    out. *)
Lemma scanners_fuel (fuel : nat) :
  (forall s, (2 * String.length s < fuel)%nat -> scan_once fuel s <> OutOfFuel)
  /\ (forall s pairs, (2 * String.length s < fuel)%nat ->
                      JSONObject fuel s pairs <> OutOfFuel)
  /\ (forall s, (2 * String.length s + 1 < fuel)%nat -> JSONArray fuel s <> OutOfFuel).
Proof.
  induction fuel as [|fuel (IHonce & IHobj & IHarr)];
    [repeat split; intros; lia|].
  split; [|split].
  - intros [|c r] Hfuel; cbn [scan_once]; [discriminate|].
    pose proof (skip_ws_length r) as Hws. simpl in Hfuel.
    destruct (decide (c = dquote)).
    { pose proof (scanstring_fuel r). destruct (scanstring r); congruence. }
    destruct (decide (c = "{"%char)).
    { destruct (after_word "}" (skip_ws r)); [discriminate|].
      specialize (IHobj (skip_ws r) ∅ ltac:(lia)).
      destruct (JSONObject fuel (skip_ws r) ∅); congruence. }
    destruct (decide (c = "["%char)).
    { destruct (after_word "]" (skip_ws r)); [discriminate|].
      specialize (IHarr (skip_ws r) ltac:(lia)).
      destruct (JSONArray fuel (skip_ws r)); congruence. }
    apply scan_atom_fuel.
  - intros s pairs Hfuel; cbn [JSONObject].
    destruct (after_word (String dquote EmptyString) s) as [r|] eqn:Hq; [|discriminate].
    apply after_word_length in Hq.
    pose proof (scanstring_fuel r).
    destruct (scanstring r) as [key r1| |] eqn:Hkey; try congruence.
    apply scanstring_rest in Hkey. pose proof (skip_ws_length r1).
    destruct (after_word ":" (skip_ws r1)) as [r2|] eqn:Hcolon; [|discriminate].
    apply after_word_length in Hcolon. pose proof (skip_ws_length r2).
    cbn [String.length Nat.add] in *.
    specialize (IHonce (skip_ws r2) ltac:(lia)).
    destruct (scan_once fuel (skip_ws r2)) as [value r3| |] eqn:Hval; try congruence.
    apply scanners_rest in Hval. pose proof (skip_ws_length r3). cbv zeta.
    destruct (after_word "}" (skip_ws r3)) as [r4|] eqn:Hclose; [discriminate|].
    destruct (after_word "," (skip_ws r3)) as [r4|] eqn:Hcomma; [|discriminate].
    apply after_word_length in Hcomma. pose proof (skip_ws_length r4).
    apply IHobj. simpl in *; lia.
  - intros s Hfuel; cbn [JSONArray].
    specialize (IHonce s ltac:(lia)).
    destruct (scan_once fuel s) as [value r1| |] eqn:Hval; try congruence.
    apply scanners_rest in Hval. pose proof (skip_ws_length r1).
    destruct (after_word "]" (skip_ws r1)) as [r2|] eqn:Hclose; [discriminate|].
    destruct (after_word "," (skip_ws r1)) as [r2|] eqn:Hcomma; [|discriminate].
    apply after_word_length in Hcomma. pose proof (skip_ws_length r2).
    specialize (IHarr (skip_ws r2) ltac:(simpl in *; lia)).
    destruct (JSONArray fuel (skip_ws r2)); congruence.
Qed.

(** [decode] answers a value or an error on every text. *)
Lemma decode_fuel (s : string) : decode s <> OutOfFuel.
Proof.
  unfold decode. pose proof (skip_ws_length s).
  destruct (scanners_fuel (S (2 * String.length s))) as (Honce & _).
  specialize (Honce (skip_ws s) ltac:(lia)).
  destruct (scan_once (S (2 * String.length s)) (skip_ws s)); try congruence.
  destruct (skip_ws rest); discriminate.
Qed.

End DecoderFacts.

(** ** Steps of the service *)

Ltac unfold_M :=
  unfold mbind, M_bind, mret, M_ret, lift, raise, try_except, try_except2,
    call, get_world in *.

Section ServiceFacts.
Context (env : Env).

Lemma same_disk_refl (w : World) : same_disk w w.
Proof. now unfold same_disk. Qed.

Lemma same_disk_trans (w1 w2 w3 : World) :
  same_disk w1 w2 -> same_disk w2 w3 -> same_disk w1 w3.
Proof. unfold same_disk. intros (?&?&?) (?&?&?). repeat split; congruence. Qed.

Lemma extract_structured_json_same_disk text w r w' :
  extract_structured_json env text w = (r, w') -> same_disk w w'.
Proof.
  unfold extract_structured_json, call_groq_langchain, loads. unfold_M.
  intros H. repeat case_match; simplify_eq; now unfold same_disk.
Qed.

Lemma document_text_same_disk path name w r w' :
  document_text env path name w = (r, w') -> same_disk w w'.
Proof.
  unfold document_text, extract_text_from_pdf, extract_text_from_docx, read_upload.
  unfold_M. intros H. repeat case_match; simplify_eq; now unfold same_disk.
Qed.

(** [save_metadata] returns exactly when it has a dict to start from and
    the file can be rewritten; the file then holds that dict with the
    one key set. *)
Lemma save_metadata_Ok document_id data w w' :
  save_metadata env document_id data w = (Ok tt, w') ->
  exists m,
    store_of (metadata_file w) = Some m
    /\ write_metadata env = None
    /\ metadata_file w' = MetaJson (JObj (<[document_id := JObj data]> m))
    /\ files w' = files w
    /\ uuid_count w' = uuid_count w.
Proof.
  unfold save_metadata, read_metadata, write_metadata_file, setitem, store_of.
  unfold_M. simpl. intros H.
  repeat case_match; simplify_eq; try congruence; eauto 10.
Qed.

Lemma save_metadata_succeeds document_id data w m :
  store_of (metadata_file w) = Some m ->
  write_metadata env = None ->
  exists w',
    save_metadata env document_id data w = (Ok tt, w')
    /\ metadata_file w' = MetaJson (JObj (<[document_id := JObj data]> m))
    /\ files w' = files w
    /\ uuid_count w' = uuid_count w.
Proof.
  unfold save_metadata, read_metadata, write_metadata_file, setitem, store_of.
  unfold_M. simpl. intros Hm Hw. rewrite Hw.
  repeat case_match; simplify_eq; try congruence; eauto 10.
Qed.

(** Reading back: [load_metadata] never raises. *)
Lemma load_metadata_total document_id w :
  exists v w', load_metadata document_id w = (Ok v, w') /\ same_disk w w'.
Proof.
  unfold load_metadata, read_metadata, get. unfold_M. simpl.
  repeat case_match; simplify_eq; eexists _, _; (split; [reflexivity|]);
    now unfold same_disk.
Qed.

Lemma load_metadata_lookup document_id w m :
  metadata_file w = MetaJson (JObj m) ->
  fst (load_metadata document_id w) = Ok (default JNull (m !! document_id)).
Proof.
  unfold load_metadata, read_metadata, get. unfold_M. simpl.
  intros ->. reflexivity.
Qed.

End ServiceFacts.

(** ** The record [process_file] builds *)

Section RecordFacts.
Context (env : Env).

Lemma elem_of_cons_ne (keys : list string) (k key : string) :
  k <> key -> bool_decide (k ∈ key :: keys) = bool_decide (k ∈ keys).
Proof. intros H. apply bool_decide_ext. rewrite elem_of_cons. tauto. Qed.

Lemma setitem_Ok obj key value obj' :
  setitem obj key value = Ok obj' ->
  exists d, obj = JObj d /\ obj' = JObj (<[key := value]> d).
Proof. destruct obj; simpl; intros H; simplify_eq; eauto. Qed.

(** On a dict the loop cannot raise, keeps every binding and binds each
    missing key to its default. *)
Lemma fill_defaults_obj keys d :
  exists d',
    fill_defaults keys (JObj d) = Ok (JObj d')
    /\ forall k,
        d' !! k =
        match d !! k with
        | Some v => Some v
        | None =>
            if bool_decide (k ∈ keys)
            then Some (if bool_decide (k ∈ list_keys) then JArr [] else JNull)
            else None
        end.
Proof.
  revert d; induction keys as [|key keys IH]; intros d.
  - exists d. split; [reflexivity|]. intros k.
    rewrite bool_decide_eq_false_2 by apply not_elem_of_nil.
    now destruct (d !! k).
  - cbn [fill_defaults contains setitem].
    destruct (d !! key) as [v|] eqn:Hkey.
    + rewrite bool_decide_eq_true_2 by eauto.
      destruct (IH d) as (d' & -> & Hd'). exists d'. split; [reflexivity|].
      intros k. rewrite Hd'. destruct (d !! k) eqn:Hk; [reflexivity|].
      assert (k <> key) by congruence.
      now rewrite (elem_of_cons_ne keys k key).
    + rewrite bool_decide_eq_false_2 by apply is_Some_None.
      destruct (IH (<[key := if bool_decide (key ∈ list_keys) then JArr [] else JNull]> d))
        as (d' & -> & Hd'). exists d'. split; [reflexivity|].
      intros k. rewrite Hd'. destruct (decide (k = key)) as [->|Hne].
      * rewrite lookup_insert_eq, Hkey.
        rewrite (bool_decide_eq_true_2 (key ∈ key :: keys)) by (apply elem_of_cons; auto).
        reflexivity.
      * rewrite lookup_insert_ne by congruence.
        now rewrite (elem_of_cons_ne keys k key).
Qed.

(** What is not a dict stays what it is, or the loop raises. *)
Lemma fill_defaults_Ok keys parsed parsed' :
  fill_defaults keys parsed = Ok parsed' ->
  (exists d d', parsed = JObj d /\ parsed' = JObj d') \/ parsed' = parsed.
Proof.
  revert parsed; induction keys as [|key keys IH]; intros parsed; simpl.
  - intros [= ->]. now right.
  - destruct (contains key parsed) as [[|]|] eqn:Hc; try discriminate.
    + apply IH.
    + destruct (setitem parsed key _) as [p|] eqn:Hs; try discriminate.
      apply setitem_Ok in Hs as (d & -> & ->). intros H.
      destruct (fill_defaults_obj keys
                  (<[key := if bool_decide (key ∈ list_keys) then JArr [] else JNull]> d))
        as (d' & Hd' & _).
      rewrite Hd' in H. injection H as <-. left; eauto.
Qed.

(** Python walks the set [expected_keys] in an order of its own.  The
    order does not matter: a dict gets the same defaults, and what is not
    a dict makes the loop raise, or leaves it untouched, in every order. *)
Lemma fill_defaults_not_dict keys parsed :
  (forall d, parsed <> JObj d) ->
  if forallb (fun key => match contains key parsed with
                         | Ok true => true
                         | _ => false
                         end) keys
  then fill_defaults keys parsed = Ok parsed
  else exists e, fill_defaults keys parsed = Raise e.
Proof.
  intros Hnot. induction keys as [|key keys IH]; cbn [forallb fill_defaults];
    [reflexivity|].
  destruct (contains key parsed) as [[|]|e] eqn:Hc; cbn [andb]; eauto.
  destruct (setitem parsed key _) as [p|e] eqn:Hs; eauto.
  apply setitem_Ok in Hs as (d & -> & _). now destruct (Hnot d).
Qed.

Lemma forallb_perm {A} (f : A -> bool) (l l' : list A) :
  l ≡ₚ l' -> forallb f l = forallb f l'.
Proof.
  induction 1 as [|x l l' _ IH|x y l|l l' l'' _ IH1 _ IH2]; cbn [forallb].
  - reflexivity.
  - now rewrite IH.
  - now rewrite !andb_assoc, (andb_comm (f y)).
  - congruence.
Qed.

Lemma fill_defaults_order keys keys' parsed :
  keys ≡ₚ keys' ->
  match fill_defaults keys parsed, fill_defaults keys' parsed with
  | Ok a, Ok b => a = b
  | Raise _, Raise _ => True
  | _, _ => False
  end.
Proof.
  intros Hperm.
  assert (Hdict : forall d,
             fill_defaults keys (JObj d) = fill_defaults keys' (JObj d)
             /\ exists d', fill_defaults keys (JObj d) = Ok d').
  { intros d.
    destruct (fill_defaults_obj keys d) as (d1 & H1 & L1).
    destruct (fill_defaults_obj keys' d) as (d2 & H2 & L2).
    rewrite H1, H2. split; [|eauto]. do 2 f_equal. apply map_eq. intros k.
    rewrite L1, L2. destruct (d !! k); [reflexivity|].
    rewrite (bool_decide_ext (k ∈ keys) (k ∈ keys')); [reflexivity|].
    now rewrite Hperm. }
  destruct parsed as [| | | | |d];
    try (destruct (Hdict d) as [<- [d' ->]]; reflexivity);
    match goal with
    | |- context [fill_defaults keys ?p] =>
        pose proof (fill_defaults_not_dict keys p ltac:(discriminate)) as H1;
        pose proof (fill_defaults_not_dict keys' p ltac:(discriminate)) as H2;
        rewrite <- (forallb_perm _ _ _ Hperm) in H2
    end;
    match type of H1 with
    | if ?b then _ else _ => destruct b
    end;
    try (rewrite H1, H2; reflexivity);
    destruct H1 as [e1 ->], H2 as [e2 ->]; exact I.
Qed.

Lemma make_result_Ok document_id parsed text r :
  make_result document_id parsed text = Ok r ->
  exists d,
    parsed = JObj d
    /\ r = <[ "document_id" := JStr document_id ]>
          (<[ "contact" := default JNull (d !! "contact") ]>
          (<[ "summary" := default JNull (d !! "summary") ]>
          (<[ "experience" := default (JArr []) (d !! "experience") ]>
          (<[ "education" := default (JArr []) (d !! "education") ]>
          (<[ "skills" := default (JArr []) (d !! "skills") ]>
          (<[ "certifications" := default (JArr []) (d !! "certifications") ]>
          (<[ "raw_text" := JStr (PyStr.slice_to text 5000) ]> ∅))))))).
Proof.
  unfold make_result, get. destruct parsed; try discriminate.
  intros [= <-]. eauto.
Qed.

Lemma make_result_obj document_id d text :
  exists r, make_result document_id (JObj d) text = Ok r.
Proof. unfold make_result, get. eauto. Qed.

(** The fields of the record. *)
Lemma make_result_fields document_id d text r :
  make_result document_id (JObj d) text = Ok r ->
  r !! "document_id" = Some (JStr document_id)
  /\ r !! "contact" = Some (default JNull (d !! "contact"))
  /\ r !! "summary" = Some (default JNull (d !! "summary"))
  /\ r !! "experience" = Some (default (JArr []) (d !! "experience"))
  /\ r !! "education" = Some (default (JArr []) (d !! "education"))
  /\ r !! "skills" = Some (default (JArr []) (d !! "skills"))
  /\ r !! "certifications" = Some (default (JArr []) (d !! "certifications"))
  /\ r !! "raw_text" = Some (JStr (PyStr.slice_to text 5000))
  /\ dom r = list_to_set
               ["document_id"; "contact"; "summary"; "experience"; "education";
                "skills"; "certifications"; "raw_text"].
Proof.
  intros H. apply make_result_Ok in H as (d' & [= <-] & ->).
  repeat split; reflexivity.
Qed.

End RecordFacts.

(** ** [process_file], end to end *)

Section ProcessFacts.
Context (env : Env).

(** What a call of [process_file] that returned has done. *)
Lemma process_file_Ok file_path name w r w' :
  process_file env file_path name w = (Ok r, w') ->
  exists text w1 fields w2 d m w3,
    document_text env file_path name w = (Ok text, w1)
    /\ nonempty (PyStr.strip text) = true
    /\ extract_structured_json env text w1 = (Ok (JObj fields), w2)
    /\ fill_defaults expected_keys (JObj fields) = Ok (JObj d)
    /\ make_result (uuid4 env (uuid_count w)) (JObj d) text = Ok r
    /\ save_metadata env (uuid4 env (uuid_count w)) r w3 = (Ok tt, w')
    /\ store_of (metadata_file w) = Some m
    /\ metadata_file w' = MetaJson (JObj (<[uuid4 env (uuid_count w) := JObj r]> m))
    /\ files w' = files w
    /\ uuid_count w' = S (uuid_count w).
Proof.
  unfold process_file. unfold_M. intros H.
  destruct (document_text env file_path name w) as [[text|e] w1] eqn:Htext;
    [|discriminate].
  destruct (nonempty (PyStr.strip text)) eqn:Hblank; [|discriminate].
  cbn [negb] in H.
  destruct (extract_structured_json env text w1) as [[parsed|e] w2] eqn:Hllm;
    [|discriminate].
  destruct (fill_defaults expected_keys parsed) as [parsed'|e] eqn:Hfill;
    [|discriminate].
  unfold new_uuid in H.
  destruct (make_result (uuid4 env (uuid_count w2)) parsed' text) as [r'|e] eqn:Hres;
    [|discriminate].
  match type of H with
  | context [save_metadata ?e ?i ?d ?w0] =>
      destruct (save_metadata e i d w0) as [[[]|e'] w3] eqn:Hsave; [|discriminate]
  end.
  injection H as <- <-.
  apply document_text_same_disk in Htext as Hd1.
  apply extract_structured_json_same_disk in Hllm as Hd2.
  destruct (same_disk_trans _ _ _ Hd1 Hd2) as (Hmeta & Hfiles & Hcount).
  apply save_metadata_Ok in Hsave as Hsaved.
  destruct Hsaved as (m & Hm & _ & Hmeta' & Hfiles' & Hcount').
  cbn [metadata_file files uuid_count] in *.
  destruct (make_result_Ok _ _ _ _ Hres) as (d & -> & _).
  rewrite Hcount in *. rewrite Hmeta in Hm.
  destruct (fill_defaults_Ok _ _ _ Hfill) as [(fields & d' & -> & [= <-])| Heq];
    [|subst parsed].
  - exists text, w1, fields, w2, d, m. eexists.
    repeat split; try eassumption; congruence.
  - exists text, w1, d, w2, d, m. eexists.
    repeat split; try eassumption; congruence.
Qed.

(** The save of a call of [process_file] that returned starts from the
    store and the files the call found. *)
Lemma process_file_save_step file_path name w r w' :
  process_file env file_path name w = (Ok r, w') ->
  exists w3,
    save_metadata env (uuid4 env (uuid_count w)) r w3 = (Ok tt, w')
    /\ metadata_file w3 = metadata_file w
    /\ files w3 = files w.
Proof.
  unfold process_file. unfold_M. intros H.
  destruct (document_text env file_path name w) as [[text|e] w1] eqn:Htext;
    [|discriminate].
  destruct (nonempty (PyStr.strip text)); [|discriminate]. cbn [negb] in H.
  destruct (extract_structured_json env text w1) as [[parsed|e] w2] eqn:Hllm;
    [|discriminate].
  destruct (fill_defaults expected_keys parsed) as [parsed'|e]; [|discriminate].
  unfold new_uuid in H.
  destruct (make_result (uuid4 env (uuid_count w2)) parsed' text) as [r'|e];
    [|discriminate].
  match type of H with
  | context [save_metadata ?e ?i ?d ?w0] =>
      destruct (save_metadata e i d w0) as [[[]|e'] w3] eqn:Hsave; [|discriminate]
  end.
  injection H as <- <-.
  apply document_text_same_disk in Htext as Hd1.
  apply extract_structured_json_same_disk in Hllm as Hd2.
  destruct (same_disk_trans _ _ _ Hd1 Hd2) as (Hmeta & Hfiles & Hcount).
  rewrite Hcount in Hsave.
  eexists. split; [exact Hsave|]. split; [exact Hmeta|exact Hfiles].
Qed.

(** [process_file] returns whenever the document has text, the model's
    answer is coerced to a dict, and the store can be read and rewritten. *)
Lemma process_file_succeeds file_path name w text w1 fields w2 m :
  document_text env file_path name w = (Ok text, w1) ->
  nonempty (PyStr.strip text) = true ->
  extract_structured_json env text w1 = (Ok (JObj fields), w2) ->
  store_of (metadata_file w) = Some m ->
  write_metadata env = None ->
  exists r w', process_file env file_path name w = (Ok r, w').
Proof.
  intros Htext Hblank Hllm Hm Hwrite.
  apply document_text_same_disk in Htext as Hd1.
  apply extract_structured_json_same_disk in Hllm as Hd2.
  destruct (same_disk_trans _ _ _ Hd1 Hd2) as (Hmeta & Hfiles & Hcount).
  unfold process_file. unfold_M. rewrite Htext, Hblank. cbn [negb].
  rewrite Hllm.
  destruct (fill_defaults_obj expected_keys fields) as (d & -> & _).
  unfold new_uuid.
  destruct (make_result_obj (uuid4 env (uuid_count w2)) d text) as (r & ->).
  match goal with
  | |- context [save_metadata ?e ?i ?d ?w0] =>
      destruct (save_metadata_succeeds e i d w0 m) as (w3 & -> & _); eauto
  end.
  cbn [metadata_file]. congruence.
Qed.

End ProcessFacts.

(** ** The claims *)

Section Claims.
Context (env : Env).

(** Every record [process_file] builds has the eight fields of the dict
    literal and no other: the key [_raw] is never among them. *)
Lemma process_file_record_keys file_path name w r w' :
  process_file env file_path name w = (Ok r, w') ->
  dom r = list_to_set
            ["document_id"; "contact"; "summary"; "experience"; "education";
             "skills"; "certifications"; "raw_text"]
  /\ r !! "_raw" = None.
Proof.
  intros H. apply process_file_Ok in H
    as (text & w1 & fields & w2 & d & m & w3 & _ & _ & _ & _ & Hres & _).
  apply make_result_Ok in Hres as (d' & _ & ->). split; reflexivity.
Qed.

(** What the coercion returns once the model has answered [raw]. *)
Lemma extract_structured_json_answer text w key raw :
  LLM_PROVIDER env = "groq" ->
  GROQ_API_KEY env = Some key -> key <> EmptyString ->
  llm_invoke env (prompt_of env text) = Ok raw ->
  exists w',
    extract_structured_json env text w =
      (Ok match strict_validation env raw with
          | Some v => v
          | None =>
              default (raw_sentinel raw)
                (json_loads env (if has_span raw then bracketed_span raw else raw))
          end, w').
Proof.
  intros Hprov Hkey Hne Hllm.
  unfold extract_structured_json, call_groq_langchain, loads, strict_validation,
    has_span, bracketed_span.
  unfold_M. rewrite Hprov, Hkey, Hllm.
  destruct key; [congruence|].
  destruct (decide ("groq" = "groq")); [|congruence].
  destruct (parser_parse env raw) as [d|exc]; cbn [is_ValidationError is_Exception].
  - eauto.
  - destruct (is_ValidationError exc); repeat case_match; simplify_eq; eauto.
Qed.

Lemma unsupported_provider_raises text w :
  LLM_PROVIDER env <> "groq" ->
  extract_structured_json env text w =
    (Raise (PyExn ValueError ("Unsupported LLM provider: " +:+ LLM_PROVIDER env)), w).
Proof.
  intros H. unfold extract_structured_json.
  destruct (decide (LLM_PROVIDER env = "groq")); [contradiction|reflexivity].
Qed.

(** With a provider other than the supported one, an upload whose file
    is stored and has text is answered 400 with the provider's name, and
    the model is not called. *)
Lemma upload_unsupported_provider file w path w1 text w2 :
  LLM_PROVIDER env <> "groq" ->
  extension (filename file) ∈ ["pdf"; "docx"; "doc"] ->
  save_uploaded_file env (read file) (filename file) w = (Ok path, w1) ->
  document_text env path (filename file) w1 = (Ok text, w2) ->
  nonempty (PyStr.strip text) = true ->
  respond (upload_resume env file) w =
    (mkResponse 400
       (JObj {[ "detail" := JStr ("Unsupported LLM provider: " +:+ LLM_PROVIDER env) ]}),
     w2).
Proof.
  intros Hprov Hext Hsave Htext Hblank.
  unfold respond, upload_resume, process_file. unfold_M.
  rewrite bool_decide_eq_true_2 by assumption. cbn [negb].
  rewrite Hsave, Htext, Hblank. cbn [negb].
  rewrite unsupported_provider_raises by assumption.
  reflexivity.
Qed.

(** C2 (amended).  Once the model has answered [raw],
    [extract_structured_json] returns the first success of: strict
    validation; then the parse of the span from the first [{] to the last
    [}] when the answer has such a span, and the parse of the whole
    answer when it has none; and the record [{"_raw": raw}] when these
    fail.  The whole answer is therefore not parsed when the span exists
    and fails to parse.  In every other case the result is that of the
    three strategies taken in order. *)
Theorem C2_coercion_order text w key raw :
  LLM_PROVIDER env = "groq" ->
  GROQ_API_KEY env = Some key -> key <> EmptyString ->
  llm_invoke env (prompt_of env text) = Ok raw ->
  exists v w',
    extract_structured_json env text w = (Ok v, w')
    /\ (forall d, parser_parse env raw = Ok d -> v = JObj d)
    /\ (strict_validation env raw = None -> has_span raw = true ->
        v = default (raw_sentinel raw) (json_loads env (bracketed_span raw)))
    /\ (strict_validation env raw = None -> has_span raw = false ->
        v = default (raw_sentinel raw) (json_loads env raw))
    /\ (is_Some (strict_validation env raw) \/ has_span raw = false
        \/ is_Some (span_parse env raw) \/ whole_parse env raw = None ->
        v = coerce_in_order env raw).
Proof.
  intros Hprov Hkey Hne Hllm.
  destruct (extract_structured_json_answer text w key raw Hprov Hkey Hne Hllm)
    as (w' & Hrun).
  eexists _, w'. split; [exact Hrun|].
  unfold coerce_in_order, first_success, span_parse, whole_parse.
  unfold strict_validation in *.
  destruct (parser_parse env raw) as [d|exc].
  - repeat split; try discriminate; try reflexivity. now intros d' [= ->].
  - destruct (has_span raw) eqn:Hspan.
    + repeat split; try discriminate; try reflexivity.
      intros [[? [=]]|[[=]|[[v Hv]| Hwhole]]].
      * now rewrite Hv.
      * rewrite Hwhole. now destruct (json_loads env (bracketed_span raw)).
    + repeat split; try discriminate; try reflexivity.
      intros _. now destruct (json_loads env raw).
Qed.

(** C4 (amended).  For every dictionary the structured-extraction step
    returns, the record built and stored by [process_file] has the fields
    experience, education, skills and certifications; each is the empty
    list when the dictionary has no such key, and otherwise the value the
    dictionary binds to the key, unchanged: a list stays a list, and a key
    bound to null is stored as null. *)
Theorem C4_list_fields_default file_path name w r w' :
  process_file env file_path name w = (Ok r, w') ->
  exists text w1 fields w2,
    extract_structured_json env text w1 = (Ok (JObj fields), w2)
    /\ stored_record w' (uuid4 env (uuid_count w)) = Some r
    /\ forall key, key ∈ list_keys ->
         r !! key = Some (default (JArr []) (fields !! key))
         /\ (fields !! key = None -> r !! key = Some (JArr []))
         /\ (forall items, fields !! key = Some (JArr items) ->
             r !! key = Some (JArr items)).
Proof.
  intros H. apply process_file_Ok in H
    as (text & w1 & fields & w2 & d & m & w3 & _ & _ & Hllm & Hfill & Hres & _ & _
        & Hmeta & _).
  exists text, w1, fields, w2. split; [exact Hllm|]. split.
  { unfold stored_record. rewrite Hmeta, lookup_insert_eq. reflexivity. }
  destruct (fill_defaults_obj expected_keys fields) as (d' & Hd' & Hlook).
  rewrite Hd' in Hfill. injection Hfill as ->.
  apply make_result_fields in Hres
    as (_ & _ & _ & Hexp & Hedu & Hskills & Hcert & _).
  assert (Hkey : forall key, key ∈ list_keys ->
            r !! key = Some (default (JArr []) (fields !! key))).
  { intros key Hin. unfold list_keys in Hin.
    repeat (apply elem_of_cons in Hin as [->|Hin]);
      [rewrite Hexp|rewrite Hedu|rewrite Hskills|rewrite Hcert|
        now apply elem_of_nil in Hin];
      rewrite Hlook; now destruct (fields !! _). }
  intros key Hin. specialize (Hkey key Hin). rewrite Hkey.
  repeat split; [now intros ->|now intros items ->].
Qed.

(** C5 (amended).  When the metadata file cannot be read during a
    fetch-by-id request, [load_metadata] answers [None] as it does for an
    absent key, and the HTTP surface returns status 404 with the detail
    "Resume not found". *)
Theorem C5_read_error_is_not_found document_id w e :
  metadata_file w = MetaError e ->
  exists w',
    respond (get_resume document_id) w =
      (mkResponse 404 (JObj {[ "detail" := JStr "Resume not found" ]}), w')
    /\ same_disk w w'
    /\ load_metadata document_id w = (Ok JNull, w').
Proof.
  intros H. unfold respond, get_resume, load_metadata, read_metadata.
  unfold_M. cbn [metadata_file]. rewrite H. cbn [is_Exception truthy negb].
  eexists. split; [reflexivity|]. split; [now unfold same_disk|reflexivity].
Qed.

(** C6.  The [raw_text] of the record [process_file] stores is at most
    5000 characters long; it is the prefix of 5000 characters of the
    extracted text when that text is longer, and the extracted text itself
    otherwise. *)
Theorem C6_raw_text_truncated file_path name w r w' :
  process_file env file_path name w = (Ok r, w') ->
  exists text w1 raw_text,
    document_text env file_path name w = (Ok text, w1)
    /\ stored_record w' (uuid4 env (uuid_count w)) = Some r
    /\ r !! "raw_text" = Some (JStr raw_text)
    /\ PyStr.len raw_text <= 5000
    /\ (5000 < PyStr.len text ->
        PyStr.len raw_text = 5000 /\ exists rest, text = raw_text +:+ rest)
    /\ (PyStr.len text <= 5000 -> raw_text = text).
Proof.
  intros H. apply process_file_Ok in H
    as (text & w1 & fields & w2 & d & m & w3 & Htext & _ & _ & _ & Hres & _ & _
        & Hmeta & _).
  apply make_result_fields in Hres as (_ & _ & _ & _ & _ & _ & _ & Hraw & _).
  exists text, w1, (PyStr.slice_to text 5000).
  split; [exact Htext|]. split.
  { unfold stored_record. rewrite Hmeta, lookup_insert_eq. reflexivity. }
  split; [exact Hraw|].
  pose proof (slice_to_length text 5000 ltac:(lia)) as Hlen.
  repeat split.
  - lia.
  - lia.
  - apply slice_to_prefix. lia.
  - apply slice_to_all.
Qed.

(** C7.  For every uploaded file whose extension (the text after the last
    point of the lower-cased name, see [extension_after_last_point]) is
    none of pdf, docx and doc, POST /api/upload answers 400 and leaves the
    world as it was: no file is stored and no text is extracted. *)
Theorem C7_unsupported_extension file w :
  extension (filename file) ∉ ["pdf"; "docx"; "doc"] ->
  respond (upload_resume env file) w =
    (mkResponse 400 (JObj {[ "detail" := JStr "Only PDF or DOCX files are supported." ]}),
     w).
Proof.
  intros H. unfold respond, upload_resume.
  rewrite bool_decide_eq_false_2 by assumption. reflexivity.
Qed.

(** C8.  The [document_id] of the record [process_file] returns and
    stores is the identifier drawn by this call, the one [uuid4] gives at
    the count of identifiers drawn before (so, [uuid4] never repeating, it
    differs from every identifier drawn earlier); it does not depend on
    the inference response: under any other answer of the model and of
    the parsers, the same call gives the same [document_id]. *)
Theorem C8_document_id_fresh file_path name w r w' :
  process_file env file_path name w = (Ok r, w') ->
  r !! "document_id" = Some (JStr (uuid4 env (uuid_count w)))
  /\ stored_record w' (uuid4 env (uuid_count w)) = Some r
  /\ uuid_count w' = S (uuid_count w)
  /\ ((forall i j, uuid4 env i = uuid4 env j -> i = j) ->
      forall n, (n < uuid_count w)%nat -> uuid4 env n <> uuid4 env (uuid_count w))
  /\ forall env' r2 w2',
       uuid4 env' = uuid4 env ->
       process_file env' file_path name w = (Ok r2, w2') ->
       r2 !! "document_id" = r !! "document_id".
Proof.
  intros H. apply process_file_Ok in H
    as (text & w1 & fields & w2 & d & m & w3 & _ & _ & _ & _ & Hres & _ & _
        & Hmeta & _ & Hcount).
  apply make_result_fields in Hres as (Hid & _).
  split; [exact Hid|]. split.
  { unfold stored_record. rewrite Hmeta, lookup_insert_eq. reflexivity. }
  split; [exact Hcount|]. split.
  { intros Hinj n Hn Heq. apply Hinj in Heq. lia. }
  intros env' r2 w2' Huuid H2. apply process_file_Ok in H2
    as (text' & w1' & fields' & w2'' & d' & m' & w3' & _ & _ & _ & _ & Hres' & _).
  apply make_result_fields in Hres' as (Hid' & _).
  rewrite Hid, Hid', Huuid. reflexivity.
Qed.

(** C9.  Every record [process_file] stores is stored under its own
    [document_id]: the key given to [save_metadata] is the string in the
    record's [document_id] field, and a lookup by that key afterwards
    yields that record.  The save is the one change of the store: it
    starts from the store the call found, and every other key is
    afterwards as the call found it, bound to the same value or absent, so
    the record is stored under no other key. *)
Theorem C9_stored_under_own_id file_path name w r w' :
  process_file env file_path name w = (Ok r, w') ->
  exists document_id w3 m,
    save_metadata env document_id r w3 = (Ok tt, w')
    /\ r !! "document_id" = Some (JStr document_id)
    /\ metadata_file w' = MetaJson (JObj m)
    /\ m !! document_id = Some (JObj r)
    /\ fst (load_metadata document_id w') = Ok (JObj r)
    /\ metadata_file w3 = metadata_file w
    /\ exists m0,
         store_of (metadata_file w) = Some m0
         /\ m = <[document_id := JObj r]> m0
         /\ (forall k, k <> document_id -> m !! k = m0 !! k)
         /\ dom m = {[ document_id ]} ∪ dom m0.
Proof.
  intros H.
  destruct (process_file_save_step env _ _ _ _ _ H) as (w3 & Hsave & Hstart & _).
  apply process_file_Ok in H
    as (text & w1 & fields & w2 & d & m & _ & _ & _ & _ & _ & Hres & _ & Hm
        & Hmeta & _).
  apply make_result_fields in Hres as (Hid & _).
  exists (uuid4 env (uuid_count w)), w3, (<[uuid4 env (uuid_count w) := JObj r]> m).
  split; [exact Hsave|]. split; [exact Hid|]. split; [exact Hmeta|].
  split; [apply lookup_insert_eq|]. split.
  { rewrite (load_metadata_lookup _ _ _ Hmeta), lookup_insert_eq. reflexivity. }
  split; [exact Hstart|].
  exists m. split; [exact Hm|]. split; [reflexivity|]. split.
  - intros k Hk. apply lookup_insert_ne. congruence.
  - apply dom_insert_L.
Qed.


End Claims.

(** ** The claims on sample runs *)

Section SampleRuns.
Import Reference Sample.

(** [uploaded] is the world [save_uploaded_file] leaves. *)
Example uploaded_is_saved :
  save_uploaded_file (env "groq" (Ok answer_valid)) (read cv) (filename cv) world0
  = (Ok cv_path, uploaded).
Proof. vm_compute. reflexivity. Qed.

(** C1 (the code drops the sentinel).  The model answers with prose: the
    three strategies fail and [extract_structured_json] returns
    [{"_raw": raw}]; the upload is answered 200, and the record stored
    has no [_raw] field: it is the very record stored when the model
    answers with an empty object. *)
Lemma C1_raw_response_not_stored :
  let e := env "groq" (Ok answer_prose) in
  let run := respond (upload_resume e cv) world0 in
  let run_empty := respond (upload_resume (env "groq" (Ok "{}")) cv) world0 in
  strict_validation e answer_prose = None
  /\ span_parse e answer_prose = None
  /\ whole_parse e answer_prose = None
  /\ fst (extract_structured_json e (read cv) world0) = Ok (raw_sentinel answer_prose)
  /\ fst run = mkResponse 200 (JObj {[ "document_id" := JStr "uuid-1" ]})
  /\ exists r,
       stored_record (snd run) "uuid-1" = Some r
       /\ r !! "_raw" = None
       /\ r !! "contact" = Some JNull
       /\ r !! "skills" = Some (JArr [])
       /\ stored_record (snd run_empty) "uuid-1" = Some r.
Proof.
  cbv zeta. repeat split; try (vm_compute; reflexivity).
  eexists. repeat split; vm_compute; reflexivity.
Qed.

(** C2 (counterexample).  The model answers with an array of two
    objects.  Strict validation fails; the span from the first [{] to
    the last [}] is not one JSON value; the whole answer is valid JSON,
    so the three strategies taken in order give the array; the code
    returns the sentinel record. *)
Lemma C2_span_failure_skips_whole_parse :
  let e := env "groq" (Ok answer_array) in
  strict_validation e answer_array = None
  /\ has_span answer_array = true
  /\ span_parse e answer_array = None
  /\ whole_parse e answer_array
     = Some (JArr [JObj {[ "a" := JNum "1" ]}; JObj {[ "b" := JNum "2" ]}])
  /\ coerce_in_order e answer_array
     = JArr [JObj {[ "a" := JNum "1" ]}; JObj {[ "b" := JNum "2" ]}]
  /\ fst (extract_structured_json e (read cv) uploaded) = Ok (raw_sentinel answer_array).
Proof. cbv zeta. repeat split; vm_compute; reflexivity. Qed.

(** C2 on an answer whose span parses: the result is that of the three
    strategies in order. *)
Lemma C2_coercion_order_witness :
  let e := env "groq" (Ok answer_null) in
  llm_invoke e (prompt_of e (read cv)) = Ok answer_null
  /\ fst (extract_structured_json e (read cv) uploaded)
     = Ok (coerce_in_order e answer_null).
Proof.
  cbv zeta. split; [reflexivity|].
  destruct (C2_coercion_order (env "groq" (Ok answer_null)) (read cv) uploaded
              "gsk-key" answer_null)
    as (v & w' & Hrun & _ & _ & _ & Horder);
    [reflexivity|reflexivity|discriminate|reflexivity|].
  rewrite Hrun. cbn [fst]. f_equal. apply Horder.
  right; right; left. vm_compute. eauto.
Defined.

(** C3 (the code answers 400).  With the provider set to "openai", the
    upload of a readable document is answered 400 with the provider's
    name in the detail.  The sibling misconfiguration, a missing API key,
    is answered 500 with the generic message. *)
Lemma C3_unsupported_provider_is_400 :
  fst (respond (upload_resume (env "openai" (Ok answer_valid)) cv) world0)
  = mkResponse 400 (JObj {[ "detail" := JStr "Unsupported LLM provider: openai" ]})
  /\ fst (respond (upload_resume (without_key (env "groq" (Ok answer_valid))) cv) world0)
     = mkResponse 500 (JObj {[ "detail" := JStr "Failed to process resume." ]}).
Proof. split; vm_compute; reflexivity. Qed.

(** C4 (counterexample).  The model binds [experience] to null: the
    dictionary returned by the extraction step has the key, and the
    record stored has [experience] null, not a list. *)
Lemma C4_null_list_field_stored :
  let e := env "groq" (Ok answer_null) in
  fst (extract_structured_json e (read cv) uploaded)
  = Ok (JObj {[ "experience" := JNull ]})
  /\ exists r w',
       process_file e cv_path (filename cv) uploaded = (Ok r, w')
       /\ stored_record w' "uuid-1" = Some r
       /\ r !! "experience" = Some JNull.
Proof.
  cbv zeta. split; [vm_compute; reflexivity|].
  eexists _, _. repeat split; vm_compute; reflexivity.
Qed.

(** C4 on an answer that passes strict validation with a null, a list and
    a missing list field. *)
Lemma C4_list_fields_default_witness :
  let run := processed answer_valid in
  run = (Ok (record_of run), snd run)
  /\ record_of run !! "experience" = Some JNull
  /\ record_of run !! "skills" = Some (JArr [JStr "Rocq"])
  /\ record_of run !! "education" = Some (JArr []).
Proof.
  cbv zeta.
  assert (H : processed answer_valid
              = (Ok (record_of (processed answer_valid)), snd (processed answer_valid)))
    by (vm_compute; reflexivity).
  split; [exact H|].
  destruct (C4_list_fields_default _ _ _ _ _ _ H)
    as (text & w1 & fields & w2 & _ & _ & _).
  repeat split; vm_compute; reflexivity.
Defined.

(** C5 (counterexample).  The metadata file cannot be opened: the fetch
    is answered 404, not 500. *)
Lemma C5_unreadable_store_is_404 :
  fst (respond (get_resume "uuid-7") unreadable)
  = mkResponse 404 (JObj {[ "detail" := JStr "Resume not found" ]}).
Proof. vm_compute. reflexivity. Qed.

(** C5 on a store that cannot be opened. *)
Lemma C5_read_error_is_not_found_witness :
  metadata_file unreadable = MetaError (PyExn OSError "Permission denied")
  /\ status (fst (respond (get_resume "uuid-7") unreadable)) = 404
  /\ fst (load_metadata "uuid-7" unreadable) = Ok JNull.
Proof.
  split; [reflexivity|].
  destruct (C5_read_error_is_not_found "uuid-7" unreadable
              (PyExn OSError "Permission denied") eq_refl) as (w' & -> & _ & ->).
  split; reflexivity.
Defined.

(** C6 on a document of 6000 characters: the record keeps the first
    5000. *)
Lemma C6_raw_text_truncated_witness :
  let run := processed_long in
  run = (Ok (record_of run), snd run)
  /\ PyStr.len (read long_cv) = 6000
  /\ exists raw_text rest,
       record_of run !! "raw_text" = Some (JStr raw_text)
       /\ PyStr.len raw_text = 5000
       /\ read long_cv = raw_text +:+ rest.
Proof.
  cbv zeta.
  assert (H : processed_long = (Ok (record_of processed_long), snd processed_long))
    by (vm_compute; reflexivity).
  assert (Hlen : PyStr.len (read long_cv) = 6000) by (vm_compute; reflexivity).
  split; [exact H|]. split; [exact Hlen|].
  destruct (C6_raw_text_truncated _ _ _ _ _ _ H)
    as (text & w1 & raw_text & Htext & _ & Hraw & _ & Hlong & _).
  assert (Hread : text = read long_cv).
  { assert (Hdoc : fst (document_text (env "groq" (Ok answer_valid)) long_path
                          (filename long_cv) long_uploaded) = Ok (read long_cv))
      by (vm_compute; reflexivity).
    rewrite Htext in Hdoc. now injection Hdoc. }
  subst text.
  destruct Hlong as (Hcut & rest & Hrest); [rewrite Hlen; reflexivity|].
  exists raw_text, rest. split; [exact Hraw|]. split; [exact Hcut|exact Hrest].
Defined.

(** C7 on a text file. *)
Lemma C7_unsupported_extension_witness :
  (extension "notes.txt" ∉ ["pdf"; "docx"; "doc"])
  /\ respond (upload_resume (env "groq" (Ok answer_valid)) (mkUpload "notes.txt" "hello"))
       world0
     = (mkResponse 400
          (JObj {[ "detail" := JStr "Only PDF or DOCX files are supported." ]}),
        world0).
Proof.
  assert (H : extension "notes.txt" ∉ ["pdf"; "docx"; "doc"]).
  { vm_compute. intros Hin.
    repeat (apply elem_of_cons in Hin as [Hin|Hin]; [discriminate|]).
    now apply elem_of_nil in Hin. }
  split; [exact H|].
  exact (C7_unsupported_extension (env "groq" (Ok answer_valid))
           (mkUpload "notes.txt" "hello") world0 H).
Defined.

(** C8 on an answer that names an identifier of its own: the record
    carries the drawn one. *)
Lemma C8_document_id_fresh_witness :
  let run := processed answer_valid in
  run = (Ok (record_of run), snd run)
  /\ (exists d, parser_parse (env "groq" (Ok answer_valid)) answer_valid = Ok d
                /\ d !! "document_id" = Some (JStr "from-the-model"))
  /\ record_of run !! "document_id" = Some (JStr "uuid-1").
Proof.
  cbv zeta.
  assert (H : processed answer_valid
              = (Ok (record_of (processed answer_valid)), snd (processed answer_valid)))
    by (vm_compute; reflexivity).
  split; [exact H|]. split; [eexists; split; vm_compute; reflexivity|].
  destruct (C8_document_id_fresh _ _ _ _ _ _ H) as (Hid & _).
  exact Hid.
Defined.

(** C9 on the sample uploaded beside a record stored before: the new
    record is under its own identifier, and the store holds it and the
    earlier record, which is as it was. *)
Lemma C9_stored_under_own_id_witness :
  let run := processed_beside in
  run = (Ok (record_of run), snd run)
  /\ exists document_id m,
       record_of run !! "document_id" = Some (JStr document_id)
       /\ fst (load_metadata document_id (snd run)) = Ok (JObj (record_of run))
       /\ metadata_file (snd run) = MetaJson (JObj m)
       /\ m !! "uuid-7" = one_record !! "uuid-7"
       /\ dom m = {[ document_id ]} ∪ dom one_record.
Proof.
  cbv zeta.
  assert (H : processed_beside = (Ok (record_of processed_beside), snd processed_beside))
    by (vm_compute; reflexivity).
  split; [exact H|].
  destruct (C9_stored_under_own_id _ _ _ _ _ _ H)
    as (document_id & w3 & m & _ & Hid & Hmeta & _ & Hload & _
        & m0 & Hm0 & _ & Hother & Hdom).
  injection Hm0 as <-.
  exists document_id, m. split; [exact Hid|]. split; [exact Hload|].
  split; [exact Hmeta|]. split; [|exact Hdom].
  apply Hother. intros <-.
  assert (Hdrawn : record_of processed_beside !! "document_id" = Some (JStr "uuid-1"))
    by (vm_compute; reflexivity).
  rewrite Hid in Hdrawn. discriminate.
Defined.


End SampleRuns.

(** * Further properties of the code *)

(** ** Storing the upload *)

Section UploadFacts.
Context (env : Env).

(** [save_uploaded_file] draws one identifier and either writes the file
    where [save_path_of] says, or raises a [ValueError] that carries the
    message of the failed write; nothing removes what the failed write
    left behind. *)
Lemma save_uploaded_file_cases contents name w :
  let path := save_path_of env name w in
  match write_upload env path with
  | None =>
      save_uploaded_file env contents name w =
        (Ok path,
         mkWorld (metadata_file w) (<[path := contents]> (files w))
           (S (uuid_count w)) (WriteUpload path :: trace w))
  | Some exc =>
      save_uploaded_file env contents name w =
        (Raise (PyExn ValueError ("Failed to save file: " +:+ exn_str exc)),
         mkWorld (metadata_file w)
           (files_after_failed_write env path contents (files w))
           (S (uuid_count w)) (WriteUpload path :: trace w))
  end.
Proof.
  unfold save_path_of, save_uploaded_file, new_uuid. unfold_M. cbn.
  destruct (write_upload env _); reflexivity.
Qed.

(** A call of [save_metadata] that raises has not touched the uploads,
    and has left the metadata file as it was unless it is the rewrite
    that failed. *)
Lemma save_metadata_Raise document_id data w e w' :
  save_metadata env document_id data w = (Raise e, w') ->
  (write_metadata env = None -> metadata_file w' = metadata_file w)
  /\ files w' = files w
  /\ uuid_count w' = uuid_count w
  /\ (write_metadata env = None -> store_of (metadata_file w) = None).
Proof.
  unfold save_metadata, read_metadata, write_metadata_file, setitem, store_of.
  unfold_M. simpl. intros H.
  repeat case_match; simplify_eq; repeat split; try reflexivity; try congruence.
Qed.

(** A call of [process_file] that raises leaves the files as they were,
    and the store too unless it is the rewrite of the store that failed. *)
Lemma process_file_Raise file_path name w e w' :
  process_file env file_path name w = (Raise e, w') ->
  (write_metadata env = None -> metadata_file w' = metadata_file w)
  /\ files w' = files w.
Proof.
  unfold process_file. unfold_M. intros H.
  destruct (document_text env file_path name w) as [[text|e1] w1] eqn:Htext.
  2:{ injection H as <- <-. apply document_text_same_disk in Htext as (? & ? & _).
      now split. }
  apply document_text_same_disk in Htext as (Hm1 & Hf1 & _).
  destruct (negb (nonempty (PyStr.strip text))).
  { injection H as <- <-. now split. }
  destruct (extract_structured_json env text w1) as [[parsed|e2] w2] eqn:Hllm.
  2:{ injection H as <- <-.
      apply extract_structured_json_same_disk in Hllm as (? & ? & _).
      split; congruence. }
  apply extract_structured_json_same_disk in Hllm as (Hm2 & Hf2 & _).
  destruct (fill_defaults expected_keys parsed) as [parsed'|e3].
  2:{ injection H as <- <-. split; congruence. }
  unfold new_uuid in H.
  destruct (make_result _ parsed' text) as [r|e4].
  2:{ injection H as <- <-. cbn. split; congruence. }
  match type of H with
  | context [save_metadata ?e0 ?i ?d ?w0] =>
      destruct (save_metadata e0 i d w0) as [[[]|e5] w3] eqn:Hsave; [discriminate|]
  end.
  injection H as <- <-.
  apply save_metadata_Raise in Hsave as (Hm3 & Hf3 & _). cbn in Hm3, Hf3.
  split; [intros Hwrite; rewrite (Hm3 Hwrite)|]; congruence.
Qed.

(** How [upload_resume] answers, by the outcome of its two steps. *)
Lemma upload_resume_outcome file w :
  extension (filename file) ∈ ["pdf"; "docx"; "doc"] ->
  respond (upload_resume env file) w =
    match save_uploaded_file env (read file) (filename file) w with
    | (Raise e, w1) => (mkResponse 500 (detail_body (exn_str e)), w1)
    | (Ok path, w1) =>
        match process_file env path (filename file) w1 with
        | (Ok r, w2) =>
            (mkResponse 200
               (JObj {[ "document_id" := JStr (uuid4 env (uuid_count w1)) ]}), w2)
        | (Raise e, w2) =>
            (if is_ValueError e then mkResponse 400 (detail_body (exn_str e))
             else mkResponse 500 (detail_body "Failed to process resume."), w2)
        end
    end.
Proof.
  intros Hext. unfold respond, upload_resume. unfold_M.
  rewrite bool_decide_eq_true_2 by assumption. cbn [negb].
  pose proof (save_uploaded_file_cases (read file) (filename file) w) as Hsave.
  cbv zeta in Hsave.
  destruct (write_upload env (save_path_of env (filename file) w));
    rewrite Hsave; cbn [is_ValueError exn_str]; [reflexivity|].
  match goal with
  | |- context [process_file env ?p ?n ?w0] =>
      destruct (process_file env p n w0) as [[r|e] w2] eqn:Hrun
  end.
  - apply process_file_Ok in Hrun
      as (text & w1 & fields & w2' & d & m & w3 & _ & _ & _ & _ & Hres & _).
    apply make_result_fields in Hres as (Hid & _).
    unfold getitem. rewrite Hid. reflexivity.
  - cbn [is_Exception]. destruct (is_ValueError e); reflexivity.
Qed.

(** An upload under another extension is answered before anything is
    done. *)
Lemma upload_resume_refused file w :
  extension (filename file) ∉ ["pdf"; "docx"; "doc"] ->
  respond (upload_resume env file) w =
    (mkResponse 400 (detail_body "Only PDF or DOCX files are supported."), w).
Proof.
  intros H. unfold respond, upload_resume.
  rewrite bool_decide_eq_false_2 by assumption. reflexivity.
Qed.

End UploadFacts.

(** ** The upload handler *)

Section UploadProperties.
Context (env : Env).

(** What an upload answered 200 has done. *)
Lemma upload_resume_200 file w resp w' :
  respond (upload_resume env file) w = (resp, w') ->
  status resp = 200 ->
  exists r m,
    content resp = JObj {[ "document_id" := JStr (uuid4 env (S (uuid_count w))) ]}
    /\ r !! "document_id" = Some (JStr (uuid4 env (S (uuid_count w))))
    /\ store_of (metadata_file w) = Some m
    /\ metadata_file w' = MetaJson (JObj (<[uuid4 env (S (uuid_count w)) := JObj r]> m))
    /\ files w' = <[save_path_of env (filename file) w := read file]> (files w)
    /\ uuid_count w' = S (S (uuid_count w)).
Proof.
  intros Hrun Hstatus.
  destruct (decide (extension (filename file) ∈ ["pdf"; "docx"; "doc"])) as [Hext|Hext].
  2:{ rewrite (upload_resume_refused env file w Hext) in Hrun.
      injection Hrun as <- <-. discriminate. }
  rewrite (upload_resume_outcome env file w Hext) in Hrun.
  pose proof (save_uploaded_file_cases env (read file) (filename file) w) as Hsave.
  cbv zeta in Hsave.
  destruct (write_upload env (save_path_of env (filename file) w)); rewrite Hsave in Hrun.
  { injection Hrun as <- <-. discriminate. }
  match type of Hrun with
  | context [process_file env ?p ?n ?w0] =>
      destruct (process_file env p n w0) as [[r|e] w2] eqn:Hproc
  end.
  - injection Hrun as <- <-.
    apply process_file_Ok in Hproc
      as (text & w1 & fields & w2' & d & m & w3 & _ & _ & _ & _ & Hres & _ & Hm
          & Hmeta & Hfiles & Hcount).
    apply make_result_fields in Hres as (Hid & _).
    cbn [metadata_file files uuid_count] in *.
    exists r, m. repeat split; assumption.
  - injection Hrun as <- <-. destruct (is_ValueError e); discriminate.
Qed.



(** The handler answers every upload itself: 200 with the identifier, or
    400 or 500 with a detail; no exception of the pipeline reaches
    FastAPI. *)
Theorem upload_resume_answers file w :
  (exists resp w',
     upload_resume env file w = (Ok resp, w')
     /\ status resp = 200
     /\ exists document_id, content resp = JObj {[ "document_id" := JStr document_id ]})
  \/ (exists code msg w',
        upload_resume env file w = (Raise (HTTPException code msg), w')
        /\ (code = 400 \/ code = 500)).
Proof.
  unfold upload_resume. unfold_M.
  destruct (bool_decide (extension (filename file) ∈ ["pdf"; "docx"; "doc"]));
    cbn [negb]; [|right; eauto 10].
  pose proof (save_uploaded_file_cases env (read file) (filename file) w) as Hsave.
  cbv zeta in Hsave.
  destruct (write_upload env (save_path_of env (filename file) w)); rewrite Hsave;
    cbn [is_ValueError]; [right; eauto 10|].
  match goal with
  | |- context [process_file env ?p ?n ?w0] =>
      destruct (process_file env p n w0) as [[r|e] w2] eqn:Hproc
  end.
  - apply process_file_Ok in Hproc
      as (text & w1 & fields & w2' & d & m & w3 & _ & _ & _ & _ & Hres & _).
    apply make_result_fields in Hres as (Hid & _).
    unfold getitem. rewrite Hid. left. eauto 10.
  - cbn [is_Exception]. destruct (is_ValueError e); right; eauto 10.
Qed.

(** An upload that is not answered 200 leaves the metadata store as it
    was (the rewrite of the file itself not failing). *)
Theorem failed_upload_keeps_store file w resp w' :
  write_metadata env = None ->
  respond (upload_resume env file) w = (resp, w') ->
  status resp <> 200 ->
  metadata_file w' = metadata_file w.
Proof.
  intros Hwrite Hrun Hstatus.
  destruct (decide (extension (filename file) ∈ ["pdf"; "docx"; "doc"])) as [Hext|Hext].
  2:{ rewrite (upload_resume_refused env file w Hext) in Hrun.
      now injection Hrun as <- <-. }
  rewrite (upload_resume_outcome env file w Hext) in Hrun.
  pose proof (save_uploaded_file_cases env (read file) (filename file) w) as Hsave.
  cbv zeta in Hsave.
  destruct (write_upload env (save_path_of env (filename file) w)); rewrite Hsave in Hrun.
  { now injection Hrun as <- <-. }
  match type of Hrun with
  | context [process_file env ?p ?n ?w0] =>
      destruct (process_file env p n w0) as [[r|e] w2] eqn:Hproc
  end.
  - injection Hrun as <- <-. now destruct Hstatus.
  - injection Hrun as <- <-. apply process_file_Raise in Hproc as (Hmeta & _).
    exact (Hmeta Hwrite).
Qed.

(** An accepted upload whose file can be written is on disk afterwards,
    under the generated name, whatever the processing answers: the file of
    a refused or failed document is not removed. *)
Theorem upload_file_is_kept file w resp w' :
  extension (filename file) ∈ ["pdf"; "docx"; "doc"] ->
  write_upload env (save_path_of env (filename file) w) = None ->
  respond (upload_resume env file) w = (resp, w') ->
  files w' = <[save_path_of env (filename file) w := read file]> (files w).
Proof.
  intros Hext Hwrite Hrun.
  rewrite (upload_resume_outcome env file w Hext) in Hrun.
  pose proof (save_uploaded_file_cases env (read file) (filename file) w) as Hsave.
  cbv zeta in Hsave. rewrite Hwrite in Hsave. rewrite Hsave in Hrun.
  match type of Hrun with
  | context [process_file env ?p ?n ?w0] =>
      destruct (process_file env p n w0) as [[r|e] w2] eqn:Hproc
  end; injection Hrun as <- <-.
  - now apply process_file_Ok in Hproc
      as (text & w1 & fields & w2' & d & m & w3 & _ & _ & _ & _ & _ & _ & _ & _ & -> & _).
  - now apply process_file_Raise in Hproc as (_ & ->).
Qed.

(** When the upload cannot be written, the answer is 500 with the message
    of the failed write; there is no extraction, no call of the model and
    no change of the store.  The handler does not clean up: when the
    failure came after the file was opened, the file stays on disk with
    the bytes written before the failure (none, on a full disk); the
    other files are as they were. *)
Theorem upload_write_failure file w exc :
  extension (filename file) ∈ ["pdf"; "docx"; "doc"] ->
  write_upload env (save_path_of env (filename file) w) = Some exc ->
  respond (upload_resume env file) w =
    (mkResponse 500 (detail_body ("Failed to save file: " +:+ exn_str exc)),
     mkWorld (metadata_file w)
       (match write_upload_left env (save_path_of env (filename file) w) with
        | Some n =>
            <[save_path_of env (filename file) w := PyStr.take n (read file)]> (files w)
        | None => files w
        end)
       (S (uuid_count w))
       (WriteUpload (save_path_of env (filename file) w) :: trace w)).
Proof.
  intros Hext Hwrite.
  rewrite (upload_resume_outcome env file w Hext).
  pose proof (save_uploaded_file_cases env (read file) (filename file) w) as Hsave.
  cbv zeta in Hsave. rewrite Hwrite in Hsave. rewrite Hsave. reflexivity.
Qed.

End UploadProperties.

(** ** Text extraction *)

Section ExtractionProperties.
Context (env : Env).
Import PyStr.

Lemma lstrip_all_space (s : string) : all_space s = true -> lstrip s = EmptyString.
Proof.
  induction s as [|c r IH]; simpl; [reflexivity|].
  destruct (is_space c); [exact IH|discriminate].
Qed.

Lemma lstrip_empty (s : string) : lstrip s = EmptyString -> all_space s = true.
Proof.
  induction s as [|c r IH]; simpl; [reflexivity|].
  destruct (is_space c); [exact IH|discriminate].
Qed.

Lemma lstrip_head (s : string) :
  match lstrip s with
  | EmptyString => True
  | String c _ => is_space c = false
  end.
Proof.
  induction s as [|c r IH]; simpl; [exact I|].
  destruct (is_space c) eqn:Hc; [exact IH|exact Hc].
Qed.

Lemma rstrip_head (c : ascii) (r : string) :
  is_space c = false -> rstrip (String c r) <> EmptyString.
Proof. intros Hc. simpl. destruct (rstrip r); [rewrite Hc|]; discriminate. Qed.

(** [s.strip()] is empty exactly when [s] holds whitespace only. *)
Lemma strip_empty (s : string) : strip s = EmptyString <-> all_space s = true.
Proof.
  unfold strip. split.
  - intros H. apply lstrip_empty. pose proof (lstrip_head s) as Hhead.
    destruct (lstrip s) as [|c r]; [reflexivity|].
    now apply rstrip_head with (r := r) in Hhead.
  - intros H. now rewrite lstrip_all_space.
Qed.

Lemma all_space_app (a b : string) :
  all_space a = true -> all_space b = true -> all_space (a +:+ b) = true.
Proof.
  intros Ha Hb. induction a as [|c a IH]; [exact Hb|].
  change (all_space (String c (a +:+ b)) = true). simpl in *.
  apply andb_true_iff in Ha as [-> Ha]. now apply IH.
Qed.

Lemma all_space_join (l : list string) :
  Forall (fun s => all_space s = true) l -> all_space (join newline l) = true.
Proof.
  induction 1 as [|x l Hx Hl IH]; [reflexivity|].
  destruct l as [|y l]; [exact Hx|].
  change (all_space (x +:+ newline +:+ join newline (y :: l)) = true).
  apply all_space_app; [exact Hx|]. apply all_space_app; [reflexivity|exact IH].
Qed.

(** Whatever goes wrong while the text is read, [document_text] raises a
    [ValueError]: the one of an extension it does not know, or one that
    wraps the message of the library. *)
Lemma document_text_raises path name w e w' :
  document_text env path name w = (Raise e, w') ->
  exists msg,
    e = PyExn ValueError msg
    /\ (msg = "Unsupported file type. Only PDF and DOCX are allowed."
        \/ is_prefix "Unable to extract text from " msg = true).
Proof.
  unfold document_text, extract_text_from_pdf, extract_text_from_docx, read_upload.
  unfold_M. intros H.
  repeat case_match; simplify_eq; eexists; (split; [reflexivity|]); auto.
Qed.

(** A failure of the PDF or DOCX library on an accepted upload is answered
    400 with the wrapped message, whatever the class of the library's
    exception: never 500. *)
Theorem extraction_failure_is_400 file w exc :
  extension (filename file) ∈ ["pdf"; "docx"; "doc"] ->
  write_upload env (save_path_of env (filename file) w) = None ->
  (if bool_decide (extension (filename file) = "pdf")
   then fitz_open env (Some (read file)) = Raise exc
   else docx_Document env (Some (read file)) = Raise exc) ->
  fst (respond (upload_resume env file) w) =
    mkResponse 400
      (detail_body
         ((if bool_decide (extension (filename file) = "pdf")
           then "Unable to extract text from PDF: "
           else "Unable to extract text from DOCX: ") +:+ exn_str exc)).
Proof.
  intros Hext Hwrite Hlib.
  rewrite (upload_resume_outcome env file w Hext).
  pose proof (save_uploaded_file_cases env (read file) (filename file) w) as Hsave.
  cbv zeta in Hsave. rewrite Hwrite in Hsave. rewrite Hsave.
  unfold process_file, document_text. unfold_M.
  destruct (bool_decide_reflect (extension (filename file) = "pdf")) as [Hpdf|Hpdf].
  - rewrite Hpdf. rewrite bool_decide_eq_true_2 by (apply elem_of_cons; now left).
    unfold extract_text_from_pdf, read_upload. unfold_M.
    cbn [files]. rewrite lookup_insert_eq, Hlib. reflexivity.
  - rewrite bool_decide_eq_false_2.
    2:{ intros Hin. apply elem_of_cons in Hin as [Hin|Hin]; [contradiction|].
        now apply elem_of_nil in Hin. }
    rewrite bool_decide_eq_true_2.
    2:{ apply elem_of_cons in Hext as [Hin|Hin]; [contradiction|exact Hin]. }
    unfold extract_text_from_docx, read_upload. unfold_M.
    cbn [files]. rewrite lookup_insert_eq, Hlib. reflexivity.
Qed.

(** A document whose text is whitespace only is refused before the model
    is called. *)
Lemma blank_text_refused path name w text w1 :
  document_text env path name w = (Ok text, w1) ->
  all_space text = true ->
  process_file env path name w
  = (Raise (PyExn ValueError "The uploaded file contains no text."), w1).
Proof.
  intros Htext Hblank. unfold process_file. unfold_M. rewrite Htext.
  apply strip_empty in Hblank. rewrite Hblank. reflexivity.
Qed.

(** A PDF whose pages hold whitespace only (or that has no page) is
    answered 400 "The uploaded file contains no text."; the model is not
    called and nothing is stored. *)
Theorem blank_pdf_is_400 file w pages :
  extension (filename file) = "pdf" ->
  write_upload env (save_path_of env (filename file) w) = None ->
  fitz_open env (Some (read file)) = Ok pages ->
  Forall (fun page => all_space page = true) pages ->
  respond (upload_resume env file) w =
    (mkResponse 400 (detail_body "The uploaded file contains no text."),
     mkWorld (metadata_file w)
       (<[save_path_of env (filename file) w := read file]> (files w))
       (S (uuid_count w))
       (OpenPdf (save_path_of env (filename file) w)
        :: WriteUpload (save_path_of env (filename file) w) :: trace w)).
Proof.
  intros Hext Hwrite Hpages Hblank.
  assert (Hin : extension (filename file) ∈ ["pdf"; "docx"; "doc"])
    by (rewrite Hext; apply elem_of_cons; now left).
  rewrite (upload_resume_outcome env file w Hin).
  pose proof (save_uploaded_file_cases env (read file) (filename file) w) as Hsave.
  cbv zeta in Hsave. rewrite Hwrite in Hsave. rewrite Hsave.
  match goal with
  | |- context [process_file env ?p ?n ?w0] =>
      rewrite (blank_text_refused p n w0
                 (join newline (filter (fun text => Is_true (nonempty text)) pages))
                 (mkWorld (metadata_file w0) (files w0) (uuid_count w0)
                    (OpenPdf p :: trace w0)))
  end.
  - reflexivity.
  - unfold document_text. rewrite Hext.
    rewrite bool_decide_eq_true_2 by (apply elem_of_cons; now left).
    unfold extract_text_from_pdf, read_upload. unfold_M.
    cbn [files]. rewrite lookup_insert_eq, Hpages. reflexivity.
  - apply all_space_join. clear -Hblank.
    induction Hblank as [|page pages Hpage _ IH]; [constructor|].
    rewrite filter_cons. case_decide; [constructor|]; assumption.
Qed.

End ExtractionProperties.

(** ** The inference step *)

Section InferenceProperties.
Context (env : Env).

(** [extract_structured_json] calls the model at most once, and only
    with the prompt built from the text: there is no retry. *)
Lemma extract_structured_json_trace text w r w' :
  extract_structured_json env text w = (r, w') ->
  trace w' = trace w \/ trace w' = InvokeGroq (prompt_of env text) :: trace w.
Proof.
  unfold extract_structured_json, call_groq_langchain, loads. unfold_M.
  intros H. repeat case_match; simplify_eq; cbn; auto.
Qed.

Lemma document_text_invocations path name w r w' :
  document_text env path name w = (r, w') ->
  invocations (trace w') = invocations (trace w).
Proof.
  unfold document_text, extract_text_from_pdf, extract_text_from_docx, read_upload.
  unfold_M. intros H. repeat case_match; simplify_eq; reflexivity.
Qed.

Lemma save_metadata_invocations document_id data w r w' :
  save_metadata env document_id data w = (r, w') ->
  invocations (trace w') = invocations (trace w).
Proof.
  unfold save_metadata, read_metadata, write_metadata_file, setitem.
  unfold_M. simpl. intros H. repeat case_match; simplify_eq; reflexivity.
Qed.

Lemma process_file_invocations path name w r w' :
  process_file env path name w = (r, w') ->
  (invocations (trace w') <= S (invocations (trace w)))%nat.
Proof.
  unfold process_file. unfold_M. intros H.
  destruct (document_text env path name w) as [[text|e1] w1] eqn:Htext;
    apply document_text_invocations in Htext.
  2:{ injection H as <- <-. lia. }
  destruct (negb (nonempty (PyStr.strip text))).
  { injection H as <- <-. lia. }
  destruct (extract_structured_json env text w1) as [[parsed|e2] w2] eqn:Hllm;
    apply extract_structured_json_trace in Hllm.
  2:{ injection H as <- <-. destruct Hllm as [->| ->]; simpl; lia. }
  assert (Hw2 : (invocations (trace w2) <= S (invocations (trace w)))%nat)
    by (destruct Hllm as [->| ->]; simpl; lia).
  destruct (fill_defaults expected_keys parsed) as [parsed'|e3].
  2:{ injection H as <- <-. exact Hw2. }
  unfold new_uuid in H.
  destruct (make_result _ parsed' text) as [rec|e4].
  2:{ injection H as <- <-. exact Hw2. }
  match type of H with
  | context [save_metadata ?e0 ?i ?d ?w0] =>
      destruct (save_metadata e0 i d w0) as [[[]|e5] w3] eqn:Hsave;
        apply save_metadata_invocations in Hsave
  end; injection H as <- <-; cbn [trace] in Hsave; lia.
Qed.

(** One upload costs at most one call of the model. *)
Theorem upload_invokes_model_at_most_once file w :
  (invocations (trace (respond (upload_resume env file) w).2)
   <= S (invocations (trace w)))%nat.
Proof.
  destruct (decide (extension (filename file) ∈ ["pdf"; "docx"; "doc"])) as [Hext|Hext].
  2:{ rewrite (upload_resume_refused env file w Hext). simpl. lia. }
  rewrite (upload_resume_outcome env file w Hext).
  pose proof (save_uploaded_file_cases env (read file) (filename file) w) as Hsave.
  cbv zeta in Hsave.
  destruct (write_upload env (save_path_of env (filename file) w)); rewrite Hsave.
  { simpl. lia. }
  match goal with
  | |- context [process_file env ?p ?n ?w0] =>
      destruct (process_file env p n w0) as [[r|e] w2] eqn:Hproc;
        apply process_file_invocations in Hproc
  end; simpl in *; lia.
Qed.

(** With no API key (unset or empty), the supported provider raises a
    [RuntimeError] before it calls the model. *)
Lemma missing_key_raises text w :
  LLM_PROVIDER env = "groq" ->
  GROQ_API_KEY env = None \/ GROQ_API_KEY env = Some EmptyString ->
  extract_structured_json env text w =
    (Raise (PyExn RuntimeError "GROQ_API_KEY must be set for Groq provider."), w).
Proof.
  intros Hprov Hkey. unfold extract_structured_json, call_groq_langchain. unfold_M.
  rewrite Hprov. destruct (decide ("groq" = "groq")); [|congruence].
  destruct Hkey as [-> | ->]; reflexivity.
Qed.

(** What an upload is answered when the inference step raises: 400 with
    the exception's own message when its class derives from [ValueError],
    500 with the generic message otherwise; the store is as it was. *)
Lemma inference_failure_answer file w text w1 e w2 :
  extension (filename file) ∈ ["pdf"; "docx"; "doc"] ->
  write_upload env (save_path_of env (filename file) w) = None ->
  document_text env (save_path_of env (filename file) w) (filename file)
    (save_uploaded_file env (read file) (filename file) w).2 = (Ok text, w1) ->
  nonempty (PyStr.strip text) = true ->
  extract_structured_json env text w1 = (Raise e, w2) ->
  respond (upload_resume env file) w =
    (if is_ValueError e then mkResponse 400 (detail_body (exn_str e))
     else mkResponse 500 (detail_body "Failed to process resume."), w2).
Proof.
  intros Hext Hwrite Htext Hblank Hllm.
  rewrite (upload_resume_outcome env file w Hext).
  pose proof (save_uploaded_file_cases env (read file) (filename file) w) as Hsave.
  cbv zeta in Hsave. rewrite Hwrite in Hsave. rewrite Hsave in *. cbn [snd] in Htext.
  unfold process_file. unfold_M. rewrite Htext, Hblank. cbn [negb]. rewrite Hllm.
  reflexivity.
Qed.

(** With no API key, an upload that reaches the inference step is
    answered 500 with the generic message; the model is not called and
    nothing is stored. *)
Theorem missing_key_is_500 file w text w1 :
  LLM_PROVIDER env = "groq" ->
  GROQ_API_KEY env = None \/ GROQ_API_KEY env = Some EmptyString ->
  extension (filename file) ∈ ["pdf"; "docx"; "doc"] ->
  write_upload env (save_path_of env (filename file) w) = None ->
  document_text env (save_path_of env (filename file) w) (filename file)
    (save_uploaded_file env (read file) (filename file) w).2 = (Ok text, w1) ->
  nonempty (PyStr.strip text) = true ->
  respond (upload_resume env file) w =
    (mkResponse 500 (detail_body "Failed to process resume."), w1)
  /\ metadata_file w1 = metadata_file w
  /\ invocations (trace w1) = invocations (trace w).
Proof.
  intros Hprov Hkey Hext Hwrite Htext Hblank.
  rewrite (inference_failure_answer file w text w1 _ w1 Hext Hwrite Htext Hblank
             (missing_key_raises text w1 Hprov Hkey)).
  split; [reflexivity|].
  pose proof (save_uploaded_file_cases env (read file) (filename file) w) as Hsave.
  cbv zeta in Hsave. rewrite Hwrite in Hsave. rewrite Hsave in Htext. cbn [snd] in Htext.
  apply document_text_same_disk in Htext as Hdisk. destruct Hdisk as (Hmeta & _).
  apply document_text_invocations in Htext. cbn in Hmeta, Htext. now split.
Qed.

(** A parsed answer that is not a JSON object makes the normalisation
    raise a [TypeError] or an [AttributeError]. *)
Lemma fill_defaults_not_dict_raises keys parsed e :
  (forall d, parsed <> JObj d) ->
  fill_defaults keys parsed = Raise e ->
  exists msg, e = PyExn TypeError msg.
Proof.
  intros Hnot. induction keys as [|key keys IH]; cbn [fill_defaults]; [discriminate|].
  destruct parsed; try (now destruct (Hnot fields)); cbn [contains setitem];
    try (intros [= <-]; eauto);
    match goal with
    | |- context [if ?b then _ else _] => destruct b; [exact IH|intros [= <-]; eauto]
    | |- context [match ?b with true => _ | false => _ end] =>
        destruct b; [exact IH|intros [= <-]; eauto]
    end.
Qed.

(** When the coercion recovers JSON that is not an object (a list, a
    string, a number, a constant), [process_file] raises an exception
    that is no [ValueError], and the upload is answered 500 with the
    generic message; nothing is stored. *)
Theorem non_object_answer_is_500 file w text w1 parsed w2 :
  extension (filename file) ∈ ["pdf"; "docx"; "doc"] ->
  write_upload env (save_path_of env (filename file) w) = None ->
  document_text env (save_path_of env (filename file) w) (filename file)
    (save_uploaded_file env (read file) (filename file) w).2 = (Ok text, w1) ->
  nonempty (PyStr.strip text) = true ->
  extract_structured_json env text w1 = (Ok parsed, w2) ->
  (forall d, parsed <> JObj d) ->
  exists w',
    respond (upload_resume env file) w =
      (mkResponse 500 (detail_body "Failed to process resume."), w')
    /\ metadata_file w' = metadata_file w.
Proof.
  intros Hext Hwrite Htext Hblank Hllm Hnot.
  rewrite (upload_resume_outcome env file w Hext).
  pose proof (save_uploaded_file_cases env (read file) (filename file) w) as Hsave.
  cbv zeta in Hsave. rewrite Hwrite in Hsave. rewrite Hsave in *. cbn [snd] in Htext.
  apply document_text_same_disk in Htext as Hd1.
  apply extract_structured_json_same_disk in Hllm as Hd2.
  destruct (same_disk_trans _ _ _ Hd1 Hd2) as (Hmeta & _). cbn in Hmeta.
  unfold process_file. unfold_M. rewrite Htext, Hblank. cbn [negb]. rewrite Hllm.
  destruct (fill_defaults expected_keys parsed) as [parsed'|e] eqn:Hfill.
  - destruct (fill_defaults_Ok _ _ _ Hfill) as [(d & _ & -> & _)| ->];
      [now destruct (Hnot d)|].
    unfold new_uuid, make_result, get.
    destruct parsed; try (now destruct (Hnot fields));
      cbn [is_ValueError]; eexists; (split; [reflexivity|exact Hmeta]).
  - destruct (fill_defaults_not_dict_raises _ _ _ Hnot Hfill) as (msg & ->).
    cbn [is_ValueError]. eexists; (split; [reflexivity|exact Hmeta]).
Qed.

End InferenceProperties.

(** ** The metadata store *)

Section StoreProperties.
Context (env : Env).


(** Nothing else is healed.  When the file cannot be read for another
    reason, or holds valid JSON that is not an object, [save_metadata]
    raises (the exception of the read as it is; a [TypeError] for what
    is not an object) and does not attempt the write. *)
Theorem unusable_store_raises document_id data w :
  store_of (metadata_file w) = None ->
  exists e,
    save_metadata env document_id data w =
      (Raise e, mkWorld (metadata_file w) (files w) (uuid_count w)
                  (ReadMetadata :: trace w))
    /\ (forall exc, metadata_file w = MetaError exc -> e = exc)
    /\ (forall v, metadata_file w = MetaJson v -> exists msg, e = PyExn TypeError msg).
Proof.
  unfold store_of, save_metadata, read_metadata, setitem. unfold_M.
  cbn [metadata_file]. intros Hstore.
  destruct (metadata_file w) as [exc|v].
  - destruct (is_JSONDecodeError exc); [discriminate|].
    eexists. split; [reflexivity|]. split; [now intros ? [= ->]|discriminate].
  - destruct v; try discriminate;
      (eexists; split; [reflexivity|]; split; [discriminate|intros ? _; eauto]).
Qed.

(** Save, then load.  After a call of [save_metadata] that returned,
    loading the saved key gives the saved record, and loading any other
    key gives what the store held for it before (nothing, from a store
    that was healed). *)
Theorem save_then_load document_id data w w' :
  save_metadata env document_id data w = (Ok tt, w') ->
  fst (load_metadata document_id w') = Ok (JObj data)
  /\ forall m k,
       store_of (metadata_file w) = Some m ->
       k <> document_id ->
       fst (load_metadata k w') = Ok (default JNull (m !! k)).
Proof.
  intros Hrun. apply save_metadata_Ok in Hrun as (m & Hm & _ & Hmeta & _).
  split.
  - rewrite (load_metadata_lookup _ _ _ Hmeta), lookup_insert_eq. reflexivity.
  - intros m' k Hm' Hk. rewrite Hm in Hm'. injection Hm' as <-.
    rewrite (load_metadata_lookup _ _ _ Hmeta), lookup_insert_ne by congruence.
    reflexivity.
Qed.

(** Saving is an upsert.  Two saves under one key leave what the second
    alone would leave; two saves under different keys leave the same
    store in either order. *)
Theorem save_metadata_upsert id1 d1 id2 d2 w m :
  store_of (metadata_file w) = Some m ->
  write_metadata env = None ->
  let saved id d w0 := (save_metadata env id d w0).2 in
  metadata_file (saved id1 d2 (saved id1 d1 w)) = metadata_file (saved id1 d2 w)
  /\ (id1 <> id2 ->
      metadata_file (saved id2 d2 (saved id1 d1 w))
      = metadata_file (saved id1 d1 (saved id2 d2 w))).
Proof.
  intros Hm Hwrite saved. subst saved. cbv beta.
  destruct (save_metadata_succeeds env id1 d1 w m Hm Hwrite) as (wa & Ha & Hma & _).
  destruct (save_metadata_succeeds env id1 d2 w m Hm Hwrite) as (wb & Hb & Hmb & _).
  destruct (save_metadata_succeeds env id2 d2 w m Hm Hwrite) as (wc & Hc & Hmc & _).
  rewrite Ha, Hb, Hc. cbn [snd].
  assert (Hsa : store_of (metadata_file wa) = Some (<[id1 := JObj d1]> m))
    by now rewrite Hma.
  assert (Hsc : store_of (metadata_file wc) = Some (<[id2 := JObj d2]> m))
    by now rewrite Hmc.
  destruct (save_metadata_succeeds env id1 d2 wa _ Hsa Hwrite) as (waa & -> & Hmaa & _).
  destruct (save_metadata_succeeds env id2 d2 wa _ Hsa Hwrite) as (wac & -> & Hmac & _).
  destruct (save_metadata_succeeds env id1 d1 wc _ Hsc Hwrite) as (wca & -> & Hmca & _).
  cbn [snd]. split.
  - rewrite Hmaa, Hmb. now rewrite insert_insert_eq.
  - intros Hne. rewrite Hmac, Hmca. now rewrite insert_insert_ne.
Qed.


(** A key bound to a falsy value (an empty record, null, an empty list)
    is answered 404 like an unknown key. *)
Theorem falsy_record_is_404 document_id w m v :
  metadata_file w = MetaJson (JObj m) ->
  m !! document_id = Some v ->
  truthy v = false ->
  fst (respond (get_resume document_id) w)
  = mkResponse 404 (detail_body "Resume not found").
Proof.
  intros Hmeta Hv Hfalsy.
  unfold respond, get_resume, load_metadata, read_metadata, get. unfold_M.
  cbn [metadata_file]. rewrite Hmeta. cbn. rewrite Hv. cbn. rewrite Hfalsy.
  reflexivity.
Qed.

End StoreProperties.

(** ** Two uploads *)

(** Two uploads in a row, both answered 200, return different
    identifiers ([uuid4] never repeating), and the record of the first is
    still stored, unchanged, after the second. *)
Theorem two_uploads env1 env2 file1 file2 w resp1 w1 resp2 w2 :
  uuid4 env2 = uuid4 env1 ->
  (forall i j, uuid4 env1 i = uuid4 env1 j -> i = j) ->
  respond (upload_resume env1 file1) w = (resp1, w1) -> status resp1 = 200 ->
  respond (upload_resume env2 file2) w1 = (resp2, w2) -> status resp2 = 200 ->
  exists id1 id2 r1 r2,
    content resp1 = JObj {[ "document_id" := JStr id1 ]}
    /\ content resp2 = JObj {[ "document_id" := JStr id2 ]}
    /\ id1 <> id2
    /\ stored_record w1 id1 = Some r1
    /\ stored_record w2 id1 = Some r1
    /\ stored_record w2 id2 = Some r2.
Proof.
  intros Huuid Hinj Hrun1 Hs1 Hrun2 Hs2.
  destruct (upload_resume_200 env1 file1 w resp1 w1 Hrun1 Hs1)
    as (r1 & m & Hc1 & _ & _ & Hmeta1 & _ & Hcount1).
  destruct (upload_resume_200 env2 file2 w1 resp2 w2 Hrun2 Hs2)
    as (r2 & m1 & Hc2 & _ & Hm1 & Hmeta2 & _).
  rewrite Hmeta1 in Hm1. cbn in Hm1. injection Hm1 as <-.
  rewrite Huuid, Hcount1 in *.
  assert (Hne : uuid4 env1 (S (uuid_count w)) <> uuid4 env1 (S (S (S (uuid_count w))))).
  { intros Heq. apply Hinj in Heq. lia. }
  exists (uuid4 env1 (S (uuid_count w))), (uuid4 env1 (S (S (S (uuid_count w))))), r1, r2.
  split; [exact Hc1|]. split; [exact Hc2|]. split; [exact Hne|].
  unfold stored_record. rewrite Hmeta1, Hmeta2.
  rewrite lookup_insert_eq, lookup_insert_ne, !lookup_insert_eq by congruence.
  repeat split.
Qed.

(** ** The record and the schema *)

Section RecordProperties.
Context (env : Env).

(** Only six fields of the record come from the parsed answer.  The
    scalar ones, contact and summary, are the answer's binding, or null
    without one; [raw_text] is cut from the document's text; every other
    key of the answer is dropped. *)
Theorem record_fields_from_answer file_path name w r w' :
  process_file env file_path name w = (Ok r, w') ->
  exists text w1 fields w2,
    document_text env file_path name w = (Ok text, w1)
    /\ extract_structured_json env text w1 = (Ok (JObj fields), w2)
    /\ r !! "contact" = Some (default JNull (fields !! "contact"))
    /\ r !! "summary" = Some (default JNull (fields !! "summary"))
    /\ r !! "raw_text" = Some (JStr (PyStr.slice_to text 5000))
    /\ forall k,
         k ∉ ["document_id"; "contact"; "summary"; "experience"; "education";
              "skills"; "certifications"; "raw_text"] ->
         r !! k = None.
Proof.
  intros H. apply process_file_Ok in H
    as (text & w1 & fields & w2 & d & m & w3 & Htext & _ & Hllm & Hfill & Hres & _).
  exists text, w1, fields, w2. split; [exact Htext|]. split; [exact Hllm|].
  destruct (fill_defaults_obj expected_keys fields) as (d' & Hd' & Hlook).
  rewrite Hd' in Hfill. injection Hfill as ->.
  apply make_result_fields in Hres
    as (_ & Hcontact & Hsummary & _ & _ & _ & _ & Hraw & Hdom).
  split; [rewrite Hcontact, Hlook; now destruct (fields !! "contact")|].
  split; [rewrite Hsummary, Hlook; now destruct (fields !! "summary")|].
  split; [exact Hraw|].
  intros k Hk. apply not_elem_of_dom. rewrite Hdom.
  rewrite elem_of_list_to_set. exact Hk.
Qed.

(** The defaults do not depend on the order in which the expected keys
    are visited: any rearrangement of the key list fills a dict the same
    way. *)
Theorem fill_defaults_any_order keys keys' d :
  keys ≡ₚ keys' ->
  fill_defaults keys (JObj d) = fill_defaults keys' (JObj d).
Proof.
  intros Hperm. pose proof (fill_defaults_order keys keys' (JObj d) Hperm) as H.
  destruct (fill_defaults_obj keys d) as (a & Ha & _).
  destruct (fill_defaults_obj keys' d) as (b & Hb & _).
  rewrite Ha, Hb in *. now rewrite H.
Qed.

End RecordProperties.

Section SchemaProperties.
Import Models.
Context (validate_email : string -> option string).

Lemma optional_str_shape v out :
  optional_str v = Some out -> out = JNull \/ exists s, out = JStr s.
Proof. destruct v as [[]|]; intros [= <-]; eauto. Qed.

Lemma optional_str_again v out :
  optional_str v = Some out -> optional_str (Some out) = Some out.
Proof. destruct v as [[]|]; intros [= <-]; reflexivity. Qed.

Lemma is_str_again v out : is_str v = Some out -> is_str out = Some out.
Proof. destruct v; intros [= <-]; reflexivity. Qed.

Lemma mapM_again (item : JSON -> option JSON) (l l' : list JSON) :
  (forall x y, item x = Some y -> item y = Some y) ->
  mapM item l = Some l' -> mapM item l' = Some l'.
Proof.
  intros Hitem H. apply mapM_Some. apply mapM_Some in H.
  induction H as [|x y l l' Hxy _ IH]; constructor; eauto.
Qed.

Lemma optional_list_shape item v out :
  optional_list item v = Some out -> out = JNull \/ exists items, out = JArr items.
Proof.
  destruct v as [[]|]; cbn; try discriminate; try (intros [= <-]; eauto).
  destruct (mapM item items); intros [= <-]; eauto.
Qed.

Lemma optional_list_again item v out :
  (forall x y, item x = Some y -> item y = Some y) ->
  optional_list item v = Some out -> optional_list item (Some out) = Some out.
Proof.
  intros Hitem. destruct v as [[]|]; cbn; try discriminate;
    try (intros [= <-]; reflexivity).
  destruct (mapM item items) as [l'|] eqn:Hl; intros [= <-]. cbn.
  now rewrite (mapM_again item items l' Hitem Hl).
Qed.

Lemma optional_email_again v out :
  (forall s s', validate_email s = Some s' -> validate_email s' = Some s') ->
  optional_email validate_email v = Some out ->
  optional_email validate_email (Some out) = Some out.
Proof.
  intros Hemail. destruct v as [[]|]; cbn; try discriminate;
    try (intros [= <-]; reflexivity).
  destruct (validate_email s) as [s'|] eqn:Hs; intros [= <-]. cbn.
  now rewrite (Hemail s s' Hs).
Qed.

Ltac option_steps H :=
  repeat match type of H with
    | (?o ≫= _) = Some _ =>
        let x := fresh "x" in let Hx := fresh "Hx" in
        destruct o as [x|] eqn:Hx; cbn [mbind option_bind] in H; [|discriminate]
    end.

Ltac insert_lookups :=
  repeat match goal with
    | |- context [<[?k := ?x]> ?m !! ?k] => rewrite (lookup_insert_eq m k x)
    | |- context [<[?k := ?x]> ?m !! ?k'] =>
        rewrite (lookup_insert_ne m k k' x) by discriminate
    end.

Lemma ContactInfo_again v out :
  (forall s s', validate_email s = Some s' -> validate_email s' = Some s') ->
  ContactInfo validate_email v = Some out -> ContactInfo validate_email out = Some out.
Proof.
  intros Hemail. destruct v; try discriminate. unfold ContactInfo. intros H.
  option_steps H. injection H as <-. insert_lookups.
  repeat match goal with
    | Hx : optional_str _ = Some ?x |- _ =>
        rewrite (optional_str_again _ _ Hx); clear Hx
    | Hx : optional_email _ _ = Some ?x |- _ =>
        rewrite (optional_email_again _ _ Hemail Hx); clear Hx
    end.
  reflexivity.
Qed.

Lemma JobEntry_again v out : JobEntry v = Some out -> JobEntry out = Some out.
Proof.
  destruct v; try discriminate. unfold JobEntry. intros H.
  option_steps H. injection H as <-. insert_lookups.
  repeat match goal with
    | Hx : optional_str _ = Some ?x |- _ =>
        rewrite (optional_str_again _ _ Hx); clear Hx
    | Hx : optional_list is_str _ = Some ?x |- _ =>
        rewrite (optional_list_again _ _ _ is_str_again Hx); clear Hx
    end.
  reflexivity.
Qed.

Lemma EducationEntry_again v out :
  EducationEntry v = Some out -> EducationEntry out = Some out.
Proof.
  destruct v; try discriminate. unfold EducationEntry. intros H.
  option_steps H. injection H as <-. insert_lookups.
  repeat match goal with
    | Hx : optional_str _ = Some ?x |- _ =>
        rewrite (optional_str_again _ _ Hx); clear Hx
    end.
  reflexivity.
Qed.

Lemma optional_contact_again v out :
  (forall s s', validate_email s = Some s' -> validate_email s' = Some s') ->
  optional_contact validate_email v = Some out ->
  optional_contact validate_email (Some out) = Some out.
Proof.
  intros Hemail. unfold optional_contact.
  destruct v as [v|]; [|intros [= <-]; reflexivity].
  destruct v; try discriminate; try (intros [= <-]; reflexivity).
  intros H. pose proof (ContactInfo_again _ _ Hemail H) as Hagain.
  unfold ContactInfo in H. option_steps H. injection H as <-. exact Hagain.
Qed.

(** Validation is a projection: the dump of a validated answer validates
    to itself (the email validator returning addresses it accepts
    unchanged). *)
Theorem ResumeData_dump_validates v d :
  (forall s s', validate_email s = Some s' -> validate_email s' = Some s') ->
  ResumeData validate_email v = Some d ->
  ResumeData validate_email (JObj d) = Some d.
Proof.
  intros Hemail. destruct v; try discriminate. unfold ResumeData. intros H.
  destruct (fields !! "document_id") as [id|] eqn:Hid; [|discriminate].
  cbn [mbind option_bind] in H.
  option_steps H. injection H as <-. insert_lookups. cbn [mbind option_bind].
  rewrite (is_str_again _ _ Hx). cbn [mbind option_bind].
  repeat match goal with
    | Hx : optional_str _ = Some ?x |- _ =>
        rewrite (optional_str_again _ _ Hx); clear Hx
    | Hx : optional_contact _ _ = Some ?x |- _ =>
        rewrite (optional_contact_again _ _ Hemail Hx); clear Hx
    | Hx : optional_list is_str _ = Some ?x |- _ =>
        rewrite (optional_list_again _ _ _ is_str_again Hx); clear Hx
    | Hx : optional_list JobEntry _ = Some ?x |- _ =>
        rewrite (optional_list_again _ _ _ JobEntry_again Hx); clear Hx
    | Hx : optional_list EducationEntry _ = Some ?x |- _ =>
        rewrite (optional_list_again _ _ _ EducationEntry_again Hx); clear Hx
    end.
  reflexivity.
Qed.

(** What validation demands and gives: the answer is an object whose
    [document_id] is a string; the dump has the eight fields of the model
    and no other, keeps that [document_id], and each of its list fields is
    null or a list.  The normalisation loop of [process_file] then has
    nothing to add. *)
Theorem ResumeData_dump_shape v d :
  ResumeData validate_email v = Some d ->
  (exists fields document_id,
      v = JObj fields
      /\ fields !! "document_id" = Some (JStr document_id)
      /\ d !! "document_id" = Some (JStr document_id))
  /\ dom d = list_to_set
               ["document_id"; "contact"; "summary"; "experience"; "education";
                "skills"; "certifications"; "raw_text"]
  /\ (forall key, key ∈ list_keys ->
        d !! key = Some JNull \/ exists items, d !! key = Some (JArr items))
  /\ fill_defaults expected_keys (JObj d) = Ok (JObj d).
Proof.
  destruct v; try discriminate. unfold ResumeData. intros H.
  destruct (fields !! "document_id") as [id|] eqn:Hid; [|discriminate].
  cbn [mbind option_bind] in H.
  option_steps H. injection H as <-.
  destruct id; try discriminate. injection Hx as <-.
  split; [eauto|]. split; [reflexivity|]. split.
  - intros key Hin. unfold list_keys in Hin.
    repeat (apply elem_of_cons in Hin as [->|Hin]); [| | | |now apply elem_of_nil in Hin];
      insert_lookups;
      match goal with
      | Hl : optional_list _ _ = Some ?x |- Some ?x = _ \/ _ =>
          destruct (optional_list_shape _ _ _ Hl) as [->|[items ->]]; eauto
      end.
  - destruct (fill_defaults_obj expected_keys
                (<["document_id":=JStr s]> (<["contact":=x0]> (<["summary":=x1]>
                 (<["experience":=x2]> (<["education":=x3]> (<["skills":=x4]>
                 (<["certifications":=x5]> (<["raw_text":=x6]> ∅)))))))))
      as (d' & -> & Hlook).
    do 2 f_equal. apply map_eq. intros k. rewrite Hlook.
    destruct (_ !! k) eqn:Hk; [reflexivity|].
    rewrite bool_decide_eq_false_2; [reflexivity|].
    intros Hin. unfold expected_keys in Hin.
    repeat (apply elem_of_cons in Hin as [->|Hin]);
      [| | | | | |now apply elem_of_nil in Hin];
      revert Hk; insert_lookups; discriminate.
Qed.

(** A key the model does not declare is ignored: the answer validates to
    the same dump with it as without it. *)
Theorem ResumeData_ignores_extra_keys fields k x :
  k ∉ ["document_id"; "contact"; "summary"; "experience"; "education";
       "skills"; "certifications"; "raw_text"] ->
  ResumeData validate_email (JObj (<[k := x]> fields))
  = ResumeData validate_email (JObj fields).
Proof.
  intros Hk. unfold ResumeData.
  repeat (apply not_elem_of_cons in Hk as [? Hk]).
  rewrite !lookup_insert_ne by congruence. reflexivity.
Qed.

End SchemaProperties.

(** ** The span of the fallback *)

Section SpanProperties.
Import PyStr.

Lemma len_nonneg (s : string) : 0 <= len s.
Proof. unfold len. lia. Qed.

Lemma len_cons (c : ascii) (s : string) : len (String c s) = 1 + len s.
Proof. unfold len. simpl String.length. lia. Qed.

Lemma len_app (a b : string) : len (a +:+ b) = len a + len b.
Proof.
  induction a as [|c a IH]; [change (len b = 0 + len b); lia|].
  change (len (String c (a +:+ b)) = len (String c a) + len b).
  rewrite !len_cons, IH. lia.
Qed.

(** Where [find] finds the character: after a prefix without it. *)
Lemma find_from_found (c : ascii) (s : string) (i k : Z) :
  0 <= i -> find_from c s i = k -> k <> -1 ->
  exists pre rest,
    s = pre +:+ String c rest /\ find c pre = -1 /\ k = i + len pre.
Proof.
  revert i; induction s as [|a r IH]; intros i Hi; simpl; [congruence|].
  destruct (decide (a = c)) as [->|Hne].
  - intros <- _. exists EmptyString, r. repeat split. unfold len; simpl; lia.
  - intros Hk Hfound. destruct (IH (i + 1) ltac:(lia) Hk Hfound) as (pre & rest & -> & Hpre & ->).
    exists (String a pre), rest. split; [reflexivity|]. split.
    + apply find_cons. now split.
    + rewrite len_cons. lia.
Qed.

(** Where [rfind] finds the character: before a suffix without it. *)
Lemma rfind_from_found (c : ascii) (s : string) (i best : Z) :
  (rfind_from c s i best = best /\ find c s = -1)
  \/ exists pre suf,
      s = pre +:+ String c suf /\ find c suf = -1
      /\ rfind_from c s i best = i + len pre.
Proof.
  revert i best; induction s as [|a r IH]; intros i best; simpl; [now left|].
  destruct (decide (a = c)) as [->|Hne].
  - right. destruct (IH (i + 1) i) as [[Hr Hnone]|(pre & suf & -> & Hsuf & Hr)].
    + exists EmptyString, r. rewrite Hr. repeat split; [exact Hnone|].
      unfold len; simpl; lia.
    + exists (String c pre), suf. rewrite Hr, len_cons. repeat split; [exact Hsuf|lia].
  - destruct (IH (i + 1) best) as [[Hr Hnone]|(pre & suf & -> & Hsuf & Hr)].
    + left. split; [exact Hr|]. apply find_cons. now split.
    + right. exists (String a pre), suf. rewrite Hr, len_cons.
      repeat split; [exact Hsuf|lia].
Qed.

Lemma drop_app (a b : string) : drop (String.length a) (a +:+ b) = b.
Proof. induction a as [|c a IH]; [reflexivity|exact IH]. Qed.

Lemma take_app (a b : string) : take (String.length a) (a +:+ b) = a.
Proof.
  induction a as [|c a IH]; [now destruct b|].
  change (String c (take (String.length a) (a +:+ b)) = String c a). now rewrite IH.
Qed.

(** Two ways to cut one string: the shorter prefix is a prefix of the
    longer. *)
Lemma app_cut (a x b y : string) :
  a +:+ x = b +:+ y -> (String.length a <= String.length b)%nat ->
  exists m, b = a +:+ m /\ x = m +:+ y.
Proof.
  revert b; induction a as [|c a IH]; intros b Heq Hlen.
  - exists b. split; [reflexivity|exact Heq].
  - destruct b as [|c' b]; [simpl in Hlen; lia|].
    change (String c (a +:+ x) = String c' (b +:+ y)) in Heq.
    injection Heq as -> Heq. simpl in Hlen.
    destruct (IH b Heq ltac:(lia)) as (m & -> & ->).
    exists m. split; reflexivity.
Qed.

(** The span the fallback parses.  When the answer has a first opening
    brace and, after it, a last closing brace, the span starts with that
    opening brace and ends with that closing brace: no opening brace comes
    before it in the answer and no closing brace after it. *)
Theorem bracketed_span_bounds (raw : string) :
  has_span raw = true ->
  exists before body after,
    raw = before +:+ bracketed_span raw +:+ after
    /\ bracketed_span raw = String "{"%char body +:+ "}"
    /\ find "{"%char before = -1
    /\ find "}"%char after = -1.
Proof.
  unfold has_span, bracketed_span.
  set (start := find "{"%char raw). set (stop := rfind "}"%char raw). intros H.
  apply andb_true_iff in H as [H Hgt]. apply andb_true_iff in H as [Hstart Hend].
  apply negb_true_iff, Z.eqb_neq in Hstart, Hend. apply Z.gtb_lt in Hgt.
  destruct (find_from_found "{"%char raw 0 start ltac:(lia) eq_refl Hstart)
    as (before & rest & Hraw & Hbefore & Hfind).
  destruct (rfind_from_found "}"%char raw 0 (-1))
    as [[Hr _]|(pre & after & Hraw' & Hafter & Hrfind)]; [contradiction|].
  change (rfind_from "}"%char raw 0 (-1)) with stop in Hrfind.
  clearbody start stop. subst start stop.
  assert (Hcut : exists m, pre = before +:+ m
                           /\ String "{"%char rest = m +:+ String "}"%char after).
  { apply app_cut; [congruence|]. unfold len in Hgt. lia. }
  destruct Hcut as (m & -> & Hm).
  destruct m as [|c body].
  { rewrite len_app in Hgt. unfold len in Hgt at 3. simpl in Hgt. lia. }
  change (String "{"%char rest = String c (body +:+ String "}"%char after)) in Hm.
  injection Hm as <- ->.
  exists before, body, after.
  assert (Hslice : slice raw (0 + len before) (0 + len (before +:+ String "{"%char body) + 1)
                   = String "{"%char body +:+ "}").
  { unfold slice, clamp.
    assert (Hlen : len raw = len before + (1 + len body) + 1 + len after).
    { rewrite Hraw, len_app, len_cons, len_app, len_cons. lia. }
    pose proof (len_nonneg before). pose proof (len_nonneg body).
    pose proof (len_nonneg after).
    rewrite len_app, len_cons.
    destruct (0 + len before <? 0) eqn:E1; [apply Z.ltb_lt in E1; lia|].
    destruct (0 + (len before + (1 + len body)) + 1 <? 0) eqn:E2;
      [apply Z.ltb_lt in E2; lia|].
    rewrite !Z.min_l by lia.
    replace (Z.to_nat (0 + len before)) with (String.length before)
      by (unfold len; lia).
    replace (Z.to_nat (0 + (len before + (1 + len body)) + 1 - (0 + len before)))
      with (String.length (String "{"%char body +:+ "}")).
    2:{ pose proof (len_app (String "{"%char body) "}") as Hl.
        rewrite len_cons in Hl. unfold len in *. simpl String.length in *. lia. }
    rewrite Hraw at 1. rewrite drop_app.
    replace (String "{"%char (body +:+ String "}"%char after))
      with ((String "{"%char body +:+ "}") +:+ after).
    - apply take_app.
    - change (String "{"%char ((body +:+ "}") +:+ after)
              = String "{"%char (body +:+ String "}"%char after)).
      now rewrite append_assoc. }
  rewrite Hslice. split; [|split; [reflexivity|split; assumption]].
  rewrite Hraw. f_equal.
  change (String "{"%char (body +:+ String "}"%char after)
          = String "{"%char ((body +:+ "}") +:+ after)).
  now rewrite append_assoc.
Qed.

End SpanProperties.

(** ** The logger *)

Section LoggingProperties.
Import Logging.

(** Setting a logger up again never adds a handler: after a first call
    that returned, a second call on the same name sets the logger's level
    and leaves its handlers, with their levels, as the first call left
    them; there is at least one. *)
Theorem setup_logger_twice name level1 level2 loggers logger1 loggers1 n2 :
  setup_logger name level1 loggers = (Ok logger1, loggers1) ->
  checkLevel (upper level2) = Ok n2 ->
  handlers logger1 <> []
  /\ setup_logger name level2 loggers1
     = (Ok (mkLogger n2 (handlers logger1)),
        <[logger_key name := mkLogger n2 (handlers logger1)]> loggers1).
Proof.
  unfold setup_logger, getLogger. intros H1 H2. rewrite H2.
  destruct (checkLevel (upper level1)) as [n1|e]; [|discriminate].
  cbn [handlers] in H1.
  destruct (handlers (default _ (loggers !! logger_key name))) as [|h hs] eqn:Hh;
    injection H1 as <- <-; rewrite lookup_insert_eq; cbn; split;
    try discriminate; reflexivity.
Qed.

(** The LOG_LEVEL setting never sets a level.  Whatever its value, the
    modules' logger is set to INFO and the call returns; the setting only
    names the logger. *)
Theorem log_level_only_names_the_logger LOG_LEVEL loggers :
  exists logger,
    module_logger LOG_LEVEL loggers
    = (Ok logger, <[logger_key (default "INFO" LOG_LEVEL) := logger]> loggers)
    /\ level logger = 20
    /\ handlers logger <> []
    /\ (loggers !! logger_key (default "INFO" LOG_LEVEL) = None ->
        Forall (fun h => handler_level h = 20) (handlers logger)).
Proof.
  unfold module_logger, setup_logger, getLogger.
  change (checkLevel (upper "INFO")) with (Ok (A := Z) 20).
  destruct (loggers !! logger_key (default "INFO" LOG_LEVEL)) as [[lv [|h hs]]|];
    cbn; eexists; (split; [reflexivity|]); repeat split; try discriminate.
  repeat constructor.
Qed.

End LoggingProperties.

(** ** The further properties on sample runs *)

Section FurtherRuns.
Import Reference Sample Cases.


Lemma failed_upload_keeps_store_witness :
  status (upload (env "groq" (Ok answer_valid)) blank_cv).1 = 400
  /\ metadata_file (upload (env "groq" (Ok answer_valid)) blank_cv).2
     = metadata_file world0.
Proof.
  assert (Hstatus : status (upload (env "groq" (Ok answer_valid)) blank_cv).1 = 400)
    by (vm_compute; reflexivity).
  split; [exact Hstatus|].
  apply (failed_upload_keeps_store (env "groq" (Ok answer_valid)) blank_cv world0 _ _
           eq_refl (surjective_pairing _)).
  intros Hs. assert (H : 400 = 200) by (rewrite <- Hstatus; exact Hs).
  discriminate H.
Defined.

Lemma upload_file_is_kept_witness :
  status (upload (env "groq" (Ok answer_valid)) blank_cv).1 = 400
  /\ files (upload (env "groq" (Ok answer_valid)) blank_cv).2
     = {[ "data/uploads/uuid-0_blank.pdf" := "   " ]}.
Proof.
  split; [vm_compute; reflexivity|].
  etransitivity.
  - apply (upload_file_is_kept (env "groq" (Ok answer_valid)) blank_cv world0
             (upload (env "groq" (Ok answer_valid)) blank_cv).1
             (upload (env "groq" (Ok answer_valid)) blank_cv).2
             ltac:(vm_compute; apply elem_of_cons; now left) eq_refl
             (surjective_pairing _)).
  - vm_compute. reflexivity.
Defined.

(** On a full disk: the upload is answered 500, and the file that was
    opened is left behind, empty. *)
Lemma upload_write_failure_witness :
  upload (env_with disk_full pdf_pages (Some "gsk-key") (Ok answer_valid)) cv
  = (mkResponse 500 (detail_body "Failed to save file: No space left on device"),
     mkWorld (MetaJson (JObj ∅)) {[ cv_path := EmptyString ]} 1 [WriteUpload cv_path]).
Proof.
  unfold upload.
  rewrite (upload_write_failure
             (env_with disk_full pdf_pages (Some "gsk-key") (Ok answer_valid)) cv world0
             (PyExn OSError "No space left on device")
             ltac:(vm_compute; apply elem_of_cons; now left) eq_refl).
  vm_compute. reflexivity.
Defined.

Lemma extraction_failure_is_400_witness :
  (upload (env_with (fun _ => None) broken_pdf (Some "gsk-key") (Ok answer_valid)) cv).1
  = mkResponse 400
      (detail_body "Unable to extract text from PDF: cannot open broken document").
Proof.
  unfold upload.
  rewrite (extraction_failure_is_400
             (env_with (fun _ => None) broken_pdf (Some "gsk-key") (Ok answer_valid))
             cv world0 (PyExn OtherException "cannot open broken document")
             ltac:(vm_compute; apply elem_of_cons; now left) eq_refl eq_refl).
  vm_compute. reflexivity.
Defined.

Lemma blank_pdf_is_400_witness :
  (upload (env "groq" (Ok answer_valid)) blank_cv).1
  = mkResponse 400 (detail_body "The uploaded file contains no text.").
Proof.
  unfold upload.
  rewrite (blank_pdf_is_400 (env "groq" (Ok answer_valid)) blank_cv world0 ["   "]
             eq_refl eq_refl eq_refl ltac:(repeat constructor)).
  reflexivity.
Defined.

Lemma missing_key_is_500_witness :
  (upload (without_key (env "groq" (Ok answer_valid))) cv).1
  = mkResponse 500 (detail_body "Failed to process resume.").
Proof.
  unfold upload.
  destruct (missing_key_is_500 (without_key (env "groq" (Ok answer_valid))) cv world0
              (read cv)
              {| metadata_file := MetaJson (JObj ∅);
                 files := {[ cv_path := read cv ]};
                 uuid_count := 1;
                 trace := [OpenPdf cv_path; WriteUpload cv_path] |}
              eq_refl (or_introl eq_refl)
              ltac:(vm_compute; apply elem_of_cons; now left) eq_refl
              ltac:(vm_compute; reflexivity) ltac:(vm_compute; reflexivity))
    as (-> & _).
  reflexivity.
Defined.

Lemma non_object_answer_is_500_witness :
  PyJson.loads answer_list = Some (JArr [JNum "1"; JNum "2"])
  /\ (upload (env "groq" (Ok answer_list)) cv).1
     = mkResponse 500 (detail_body "Failed to process resume.").
Proof.
  split; [vm_compute; reflexivity|]. unfold upload.
  destruct (non_object_answer_is_500 (env "groq" (Ok answer_list)) cv world0
              (read cv)
              {| metadata_file := MetaJson (JObj ∅);
                 files := {[ cv_path := read cv ]};
                 uuid_count := 1;
                 trace := [OpenPdf cv_path; WriteUpload cv_path] |}
              (JArr [JNum "1"; JNum "2"])
              (extract_structured_json (env "groq" (Ok answer_list)) (read cv)
                 {| metadata_file := MetaJson (JObj ∅);
                    files := {[ cv_path := read cv ]};
                    uuid_count := 1;
                    trace := [OpenPdf cv_path; WriteUpload cv_path] |}).2
              ltac:(vm_compute; apply elem_of_cons; now left) eq_refl
              ltac:(vm_compute; reflexivity) ltac:(vm_compute; reflexivity)
              ltac:(vm_compute; reflexivity) ltac:(discriminate))
    as (w' & -> & _).
  reflexivity.
Defined.


Lemma unusable_store_raises_witness :
  store_of (metadata_file list_store) = None
  /\ exists msg,
       (save_metadata (env "groq" (Ok answer_valid)) "uuid-8" ∅ list_store).1
       = Raise (PyExn TypeError msg).
Proof.
  split; [reflexivity|].
  destruct (unusable_store_raises (env "groq" (Ok answer_valid)) "uuid-8" ∅ list_store
              eq_refl) as (e & -> & _ & Hlist).
  destruct (Hlist (JArr []) eq_refl) as (msg & ->). eauto.
Defined.

Lemma save_then_load_witness :
  exists w',
    save_metadata (env "groq" (Ok answer_valid)) "uuid-8" ∅ (with_store one_record)
    = (Ok tt, w')
    /\ fst (load_metadata "uuid-8" w') = Ok (JObj ∅)
    /\ fst (load_metadata "uuid-7" w') = Ok (JObj {[ "document_id" := JStr "uuid-7" ]}).
Proof.
  destruct (save_metadata_succeeds (env "groq" (Ok answer_valid)) "uuid-8" ∅
              (with_store one_record) one_record eq_refl eq_refl) as (w' & Hrun & _).
  exists w'. split; [exact Hrun|].
  destruct (save_then_load (env "groq" (Ok answer_valid)) "uuid-8" ∅
              (with_store one_record) w' Hrun) as (Hsaved & Hother).
  split; [exact Hsaved|].
  rewrite (Hother one_record "uuid-7" eq_refl ltac:(discriminate)).
  vm_compute. reflexivity.
Defined.

Lemma save_metadata_upsert_witness :
  let saved id d w0 := (save_metadata (env "groq" (Ok answer_valid)) id d w0).2 in
  metadata_file (saved "a" {[ "n" := JNum "2" ]} (saved "a" {[ "n" := JNum "1" ]} world0))
  = MetaJson (JObj {[ "a" := JObj {[ "n" := JNum "2" ]} ]}).
Proof.
  cbv zeta.
  destruct (save_metadata_upsert (env "groq" (Ok answer_valid))
              "a" {[ "n" := JNum "1" ]} "b" {[ "n" := JNum "2" ]} world0 ∅
              eq_refl eq_refl) as (-> & _).
  vm_compute. reflexivity.
Defined.


Lemma falsy_record_is_404_witness :
  fst (respond (get_resume "uuid-7") (with_store empty_record))
  = mkResponse 404 (detail_body "Resume not found").
Proof.
  exact (falsy_record_is_404 "uuid-7" (with_store empty_record) empty_record (JObj ∅)
           eq_refl eq_refl eq_refl).
Defined.

Lemma nth_uuid_inj (i j : nat) : nth_uuid i = nth_uuid j -> i = j.
Proof.
  unfold nth_uuid. intros H. cbv [String.append] in H. injection H as H.
  now apply (inj pretty) in H.
Qed.

Lemma two_uploads_witness :
  let first := upload (env "groq" (Ok answer_valid)) cv in
  let second := respond (upload_resume (env "groq" (Ok answer_null)) cv) first.2 in
  status first.1 = 200 /\ status second.1 = 200
  /\ exists id1 id2 r1,
       id1 <> id2
       /\ stored_record first.2 id1 = Some r1
       /\ stored_record second.2 id1 = Some r1.
Proof.
  cbv zeta.
  assert (H1 : status (upload (env "groq" (Ok answer_valid)) cv).1 = 200)
    by (vm_compute; reflexivity).
  assert (H2 : status (respond (upload_resume (env "groq" (Ok answer_null)) cv)
                         (upload (env "groq" (Ok answer_valid)) cv).2).1 = 200)
    by (vm_compute; reflexivity).
  split; [exact H1|]. split; [exact H2|].
  destruct (two_uploads (env "groq" (Ok answer_valid)) (env "groq" (Ok answer_null))
              cv cv world0 _ _ _ _ eq_refl nth_uuid_inj
              (surjective_pairing _) H1 (surjective_pairing _) H2)
    as (id1 & id2 & r1 & r2 & _ & _ & Hne & Hs1 & Hs2 & _).
  eauto 10.
Defined.

Lemma record_fields_from_answer_witness :
  let run := processed answer_valid in
  run = (Ok (record_of run), snd run)
  /\ record_of run !! "contact" = Some JNull
  /\ record_of run !! "raw_text" = Some (JStr (read cv)).
Proof.
  cbv zeta.
  assert (H : processed answer_valid
              = (Ok (record_of (processed answer_valid)), snd (processed answer_valid)))
    by (vm_compute; reflexivity).
  split; [exact H|].
  destruct (record_fields_from_answer _ _ _ _ _ _ H)
    as (text & w1 & fields & w2 & _ & _ & _ & _ & _ & _).
  split; vm_compute; reflexivity.
Defined.

Lemma process_file_succeeds_witness :
  exists r w',
    process_file (env "groq" (Ok answer_null)) cv_path (filename cv) uploaded = (Ok r, w').
Proof.
  refine (process_file_succeeds (env "groq" (Ok answer_null)) cv_path (filename cv)
            uploaded (read cv) _ {[ "experience" := JNull ]} _ ∅ _ _ _ eq_refl eq_refl);
    vm_compute; reflexivity.
Defined.

Lemma fill_defaults_any_order_witness :
  fill_defaults (reverse expected_keys) (JObj {[ "skills" := JNull ]})
  = fill_defaults expected_keys (JObj {[ "skills" := JNull ]}).
Proof.
  exact (fill_defaults_any_order (reverse expected_keys) expected_keys
           {[ "skills" := JNull ]} (reverse_Permutation _)).
Defined.

Lemma ResumeData_dump_validates_witness :
  Models.ResumeData validate_email bare_answer = Some bare_dump
  /\ Models.ResumeData validate_email (JObj bare_dump) = Some bare_dump.
Proof.
  assert (H : Models.ResumeData validate_email bare_answer = Some bare_dump)
    by (vm_compute; reflexivity).
  split; [exact H|].
  apply (ResumeData_dump_validates validate_email bare_answer bare_dump); [|exact H].
  unfold validate_email. intros s s' Hs.
  destruct (negb _) eqn:Hok in Hs; [|discriminate]. injection Hs as <-. now rewrite Hok.
Defined.

Lemma ResumeData_dump_shape_witness :
  Models.ResumeData validate_email bare_answer = Some bare_dump
  /\ dom bare_dump = list_to_set
                       ["document_id"; "contact"; "summary"; "experience"; "education";
                        "skills"; "certifications"; "raw_text"]
  /\ fill_defaults expected_keys (JObj bare_dump) = Ok (JObj bare_dump).
Proof.
  assert (H : Models.ResumeData validate_email bare_answer = Some bare_dump)
    by (vm_compute; reflexivity).
  split; [exact H|].
  destruct (ResumeData_dump_shape validate_email bare_answer bare_dump H)
    as (_ & Hdom & _ & Hfill).
  split; [exact Hdom|exact Hfill].
Defined.

Lemma ResumeData_ignores_extra_keys_witness :
  Models.ResumeData validate_email
    (JObj (<["_raw" := JStr "kept?"]> {[ "document_id" := JStr "x" ]}))
  = Models.ResumeData validate_email (JObj {[ "document_id" := JStr "x" ]}).
Proof.
  apply ResumeData_ignores_extra_keys.
  intros Hin. repeat (apply elem_of_cons in Hin as [Hin|Hin]; [discriminate|]).
  now apply elem_of_nil in Hin.
Defined.

Lemma bracketed_span_bounds_witness :
  has_span answer_array = true
  /\ exists before body after,
       answer_array = before +:+ bracketed_span answer_array +:+ after
       /\ bracketed_span answer_array = String "{"%char body +:+ "}".
Proof.
  split; [vm_compute; reflexivity|].
  destruct (bracketed_span_bounds answer_array ltac:(vm_compute; reflexivity))
    as (before & body & after & Hraw & Hspan & _).
  eauto.
Defined.

Lemma setup_logger_twice_witness :
  Logging.setup_logger "app" "debug" ∅ = (Ok first_logger, {[ "app" := first_logger ]})
  /\ (Logging.setup_logger "app" "error" {[ "app" := first_logger ]}).1
     = Ok (Logging.mkLogger 40 (Logging.handlers first_logger)).
Proof.
  assert (H1 : Logging.setup_logger "app" "debug" ∅
               = (Ok first_logger, {[ "app" := first_logger ]}))
    by (vm_compute; reflexivity).
  split; [exact H1|].
  destruct (setup_logger_twice "app" "debug" "error" ∅ first_logger
              {[ "app" := first_logger ]} 40 H1 eq_refl) as (_ & ->).
  reflexivity.
Defined.

End FurtherRuns.
